(** * pzflow: the [Flow] model object of [pzflow/normalizing_flow.py]

    A shallow embedding of class [Flow]: construction and persistence,
    the transform primitives, [log_prob], the grid posterior and the
    training loop, followed by the properties proved about them.

    Scalars are IEEE-754 binary32 values (the default dtype of
    [jax.numpy]), taken from the standard library's [spec_float] with
    its correctly rounded operations.  The collaborators the class only
    consumes (the bijector family, the prior, the optimizer, the
    automatic differentiation and the elementwise kernels of the
    numerical engine) are fields of the [Engine] class below. *)

From Stdlib Require Import ZArith List Bool Lia.
From Stdlib Require Import Floats.SpecFloat.
From stdpp Require Import gmap strings list.

Local Open Scope string_scope.
Local Open Scope list_scope.
Local Open Scope Z_scope.

(** ** Binary32 scalars *)

Module F32.

Definition prec : Z := 24.
Definition emax : Z := 128.

Abbreviation float := spec_float.

Definition add : float -> float -> float := SFadd prec emax.
Definition sub : float -> float -> float := SFsub prec emax.
Definition mul : float -> float -> float := SFmul prec emax.
Definition div : float -> float -> float := SFdiv prec emax.
Definition neg : float -> float := SFopp.

(** [of_Z n] is the binary32 value nearest to the integer [n]. *)
Definition of_Z (n : Z) : float := binary_normalize prec emax n 0 false.

(** [scaled m e] is the binary32 value nearest to [m * 2^e]. *)
Definition scaled (m e : Z) : float := binary_normalize prec emax m e false.

Definition zero : float := S754_zero false.
Definition one : float := of_Z 1.
Definition half : float := scaled 1 (-1).

(** [np.NINF], [np.inf], [np.nan]. *)
Definition NINF : float := S754_infinity true.
Definition PINF : float := S754_infinity false.
Definition NAN : float := S754_nan.

(** [finfo(float32).max] and [finfo(float32).min]. *)
Definition finfo_max : float := SFmax_float prec emax.
Definition finfo_min : float := SFopp finfo_max.

Definition isnan (x : float) : bool :=
  match x with S754_nan => true | _ => false end.

Definition isposinf (x : float) : bool :=
  match x with S754_infinity false => true | _ => false end.

Definition isneginf (x : float) : bool :=
  match x with S754_infinity true => true | _ => false end.

Definition isfinite (x : float) : bool :=
  match x with
  | S754_zero _ | S754_finite _ _ _ => true
  | S754_infinity _ | S754_nan => false
  end.

End F32.

Import F32.

(** ** Python values and exceptions *)

(** The objects a caller can pass where the code tests [is None] or
    [isinstance(_, int)]: [None], an [int], a [float], a [str]
    (booleans and array scalars are left out). *)
Inductive pyobj :=
| PyNone
| PyInt (z : Z)
| PyFloat (x : float)
| PyStr (s : string).

Definition is_None (o : pyobj) : bool :=
  match o with PyNone => true | _ => false end.

Definition isinstance_int (o : pyobj) : bool :=
  match o with PyInt _ => true | _ => false end.

Inductive exn :=
| ValueError (msg : string)
| TypeError (msg : string)
| FileNotFoundError (file : string)
| AttributeError (name : string).

(** ** Arrays *)

Abbreviation vector := (list float).

(** A two-dimensional array: its rows and the second component of its
    shape (which an array with no row still has). *)
Record matrix := Matrix { rows : list (list float); ncols : nat }.

Definition nrows (a : matrix) : nat := length (rows a).
Definition shape (a : matrix) : nat * nat := (nrows a, ncols a).

(** Where Python puts the bound [k] of a slice over [len] items:
    negative bounds count from the end, and both ends clamp. *)
Definition slice_bound (len : nat) (k : Z) : nat :=
  if k <? 0 then Z.to_nat (Z.max 0 (Z.of_nat len + k))
  else Z.to_nat (Z.min k (Z.of_nat len)).

(** [l[:k]], [l[k:]] and [l[i:j]]. *)
Definition slice_to {A} (k : Z) (l : list A) : list A :=
  take (slice_bound (length l) k) l.
Definition slice_from {A} (k : Z) (l : list A) : list A :=
  drop (slice_bound (length l) k) l.
Definition slice {A} (i j : Z) (l : list A) : list A :=
  take (slice_bound (length l) j - slice_bound (length l) i)
       (drop (slice_bound (length l) i) l).

(** [a[:, :k]] and [a[:, k:]]. *)
Definition cols_to (k : Z) (a : matrix) : matrix :=
  Matrix (map (slice_to k) (rows a)) (slice_bound (ncols a) k).
Definition cols_from (k : Z) (a : matrix) : matrix :=
  Matrix (map (slice_from k) (rows a)) (ncols a - slice_bound (ncols a) k).

(** [a[i:j]] over the rows. *)
Definition rows_slice (i j : Z) (a : matrix) : matrix :=
  Matrix (slice i j (rows a)) (ncols a).

(** [np.repeat(a, n, axis=0)]: every row [n] times in a row. *)
Definition np_repeat (a : matrix) (n : nat) : matrix :=
  Matrix (flat_map (fun r => replicate n r) (rows a)) (ncols a).

(** [np.tile(v, n)]: [n] copies of [v] end to end. *)
Definition np_tile (v : vector) (n : nat) : vector :=
  concat (replicate n v).

(** [v[:, None]]: a vector as one column. *)
Definition as_column (v : vector) : matrix :=
  Matrix (map (fun x => [x]) v) 1.

Definition hcat (a b : matrix) : matrix :=
  Matrix (zip_with app (rows a) (rows b)) (ncols a + ncols b).

(** [np.hstack((a, b, ...))] of arrays with as many rows each. *)
Definition np_hstack (a : matrix) (rest : list matrix) : matrix :=
  fold_left hcat rest a.

(** The position [k] names along an axis of [len] items, when it names
    one: negative positions count from the end. *)
Definition axis_index (len : nat) (k : Z) : option nat :=
  let i := if k <? 0 then k + Z.of_nat len else k in
  if (0 <=? i) && (i <? Z.of_nat len) then Some (Z.to_nat i) else None.

Definition set_item (k : Z) (x : float) (r : list float) : list float :=
  match axis_index (length r) k with
  | Some i => <[i := x]> r
  | None => r
  end.

(** [ops.index_update(a, ops.index[:, k], v)]: column [k] of [a] set to
    [v]; an update whose position is out of bounds is dropped. *)
Definition index_update_col (a : matrix) (k : Z) (v : vector) : matrix :=
  Matrix (zip_with (fun r x => set_item k x r) (rows a) v) (ncols a).

(** [n] chunks of [k] entries each. *)
Fixpoint chunks (n k : nat) (v : vector) : list (list float) :=
  match n with
  | O => []
  | S n' => take k v :: chunks n' k (drop k v)
  end.

(** [v.reshape((n, k))]. *)
Definition reshape (v : vector) (n k : nat) : exn + matrix :=
  if (length v =? n * k)%nat then inr (Matrix (chunks n k v) k)
  else inl (TypeError "cannot reshape array").

(** Elementwise [x + y] of two vectors of one length. *)
Definition vadd (x y : vector) : vector := zip_with add x y.

(** [x.sum()], accumulated from the left. *)
Definition np_sum (x : vector) : float := fold_left add x zero.

(** [np.trapz(y=y, x=x)] along one row:
    [0.5 * (diff(x) * (y[1:] + y[:-1])).sum()]. *)
Definition trapz (y x : vector) : float :=
  mul half
      (np_sum (zip_with mul (zip_with sub (tail x) x)
                            (zip_with add (tail y) y))).

(** One entry of [np.nan_to_num(x, nan=nan)], where [np] is
    [jax.numpy].  The function makes three replacements one after the
    other: [x = where(isnan(x), nan, x)], then
    [x = where(isposinf(x), posinf, x)], then
    [x = where(isneginf(x), neginf, x)].  The calls pass neither
    [posinf] nor [neginf], which then are the largest and the most
    negative finite value.  A NaN that was replaced by an infinite
    [nan] is therefore replaced again, by a finite value. *)
Definition nan_to_num1 (nan : float) (x : float) : float :=
  let x := if isnan x then nan else x in
  let x := if isposinf x then finfo_max else x in
  if isneginf x then finfo_min else x.

Definition nan_to_num (x : vector) (nan : float) : vector :=
  map (nan_to_num1 nan) x.

Definition nan_to_num_2d (a : matrix) (nan : float) : matrix :=
  Matrix (map (fun r => nan_to_num r nan) (rows a)) (ncols a).

(** [range(start, stop, step)]. *)
Definition py_range (start stop step : Z) : exn + list Z :=
  if step =? 0 then inl (ValueError "range() arg 3 must not be zero")
  else
    let n := if 0 <? step then (stop - start + step - 1) / step
             else (start - stop - step - 1) / (- step) in
    inr (map (fun k => start + Z.of_nat k * step) (seq 0 (Z.to_nat n))).

(** ** The state-and-exception monad of the methods *)

Definition M (S A : Type) : Type := S -> (exn + A) * S.

#[global] Instance M_ret {S} : MRet (M S) :=
  fun A a s => (inr a, s).

#[global] Instance M_bind {S} : MBind (M S) :=
  fun A B k m s =>
    match m s with
    | (inr a, s') => k a s'
    | (inl e, s') => (inl e, s')
    end.

Definition raise {S A} (e : exn) : M S A := fun s => (inl e, s).
Definition gets {S A} (f : S -> A) : M S A := fun s => (inr (f s), s).
Definition modify {S} (f : S -> S) : M S unit := fun s => (inr tt, f s).
Definition lift {S A} (r : exn + A) : M S A := fun s => (r, s).
Definition when {S} (b : bool) (m : M S unit) : M S unit :=
  if b then m else mret tt.

(** [for x in l: v = body(x, v)]. *)
Fixpoint for_each {S A V} (l : list A) (body : A -> V -> M S V) (v : V)
  : M S V :=
  match l with
  | [] => mret v
  | x :: l' => v' ← body x v; for_each l' body v'
  end.

(** ** The collaborators *)

(** [forward_fun] and [inverse_fun]: parameters and a batch to the
    transformed batch and its log-determinants. *)
Definition apply_fun (P : Type) : Type := P -> matrix -> matrix * vector.

(** A bijector: a key and a dimension to initial parameters and the
    two apply functions. *)
Definition bijector_of (P K : Type) : Type :=
  K -> Z -> P * apply_fun P * apply_fun P.

(** What [Flow] uses of its prior. *)
Record Prior := {
  prior_sample : Z -> option Z -> matrix;
  prior_log_prob : matrix -> vector
}.

(** The environment of the class: the types of parameter trees, of
    user metadata and of random keys, [jax.random], [jax.grad], the
    elementwise kernels, and the two names imported from the rest of
    the package. *)
Class Engine := {
  Params : Type;
  Info : Type;
  Key : Type;
  PRNGKey : Z -> Key;
  random_split : Key -> Key * Key;
  random_permutation : Key -> matrix -> matrix;
  grad : (Params -> matrix -> float) -> Params -> matrix -> Params;
  np_exp : float -> float;
  np_mean : vector -> float;
  RollingSplineCoupling : Z -> bijector_of Params Key;
  Normal : Z -> Prior
}.

Section Flow.

Context `{E : Engine}.

Definition ApplyFun : Type := apply_fun Params.
Definition Bijector : Type := bijector_of Params Key.

(** ** The object *)

Record Flow := {
  input_dim : Z;
  info : Info;
  _bijector : Bijector;
  _params : Params;
  _forward : ApplyFun;
  _inverse : ApplyFun;
  prior : Prior
}.

(** The dictionary [save] pickles.  A file holds the dictionary that
    was dumped to it: [dill.load] gives back what [dill.dump] wrote. *)
Record SaveDict := {
  sd_input_dim : Z;
  sd_info : Info;
  sd_bijector : Bijector;
  sd_params : Params
}.

(** What a method runs on: its receiver, the files, and the losses
    printed so far. *)
Record State := {
  self : Flow;
  disk : gmap string SaveDict;
  stdout : list float
}.

Definition set_params (p : Params) (f : Flow) : Flow :=
  {| input_dim := input_dim f; info := info f; _bijector := _bijector f;
     _params := p; _forward := _forward f; _inverse := _inverse f;
     prior := prior f |}.

Definition print (x : float) : M State unit :=
  modify (fun st => {| self := self st; disk := disk st;
                       stdout := stdout st ++ [x] |}).

(** [with open(file, "wb") as handle: dill.dump(d, handle)]. *)
Definition dill_dump (d : SaveDict) (file : string) : M State unit :=
  modify (fun st => {| self := self st; disk := <[file := d]> (disk st);
                       stdout := stdout st |}).

(** ** Construction *)

(** The attributes [__init__] has assigned so far. *)
Record Attrs := {
  a_input_dim : option Z;
  a_info : option Info;
  a_bijector : option Bijector;
  a_params : option Params;
  a_forward : option ApplyFun;
  a_inverse : option ApplyFun;
  a_prior : option Prior
}.

Definition no_attrs : Attrs :=
  {| a_input_dim := None; a_info := None; a_bijector := None;
     a_params := None; a_forward := None; a_inverse := None;
     a_prior := None |}.

Record InitState := {
  attrs : Attrs;
  files : gmap string SaveDict
}.

Definition assign (upd : Attrs -> Attrs) : M InitState unit :=
  modify (fun st => {| attrs := upd (attrs st); files := files st |}).

Definition set_input_dim (d : Z) (a : Attrs) : Attrs :=
  {| a_input_dim := Some d; a_info := a_info a; a_bijector := a_bijector a;
     a_params := a_params a; a_forward := a_forward a;
     a_inverse := a_inverse a; a_prior := a_prior a |}.
Definition set_info (i : Info) (a : Attrs) : Attrs :=
  {| a_input_dim := a_input_dim a; a_info := Some i;
     a_bijector := a_bijector a; a_params := a_params a;
     a_forward := a_forward a; a_inverse := a_inverse a;
     a_prior := a_prior a |}.
Definition set_bijector (b : Bijector) (a : Attrs) : Attrs :=
  {| a_input_dim := a_input_dim a; a_info := a_info a;
     a_bijector := Some b; a_params := a_params a;
     a_forward := a_forward a; a_inverse := a_inverse a;
     a_prior := a_prior a |}.
Definition set__params (p : Params) (a : Attrs) : Attrs :=
  {| a_input_dim := a_input_dim a; a_info := a_info a;
     a_bijector := a_bijector a; a_params := Some p;
     a_forward := a_forward a; a_inverse := a_inverse a;
     a_prior := a_prior a |}.
Definition set_forward (g : ApplyFun) (a : Attrs) : Attrs :=
  {| a_input_dim := a_input_dim a; a_info := a_info a;
     a_bijector := a_bijector a; a_params := a_params a;
     a_forward := Some g; a_inverse := a_inverse a;
     a_prior := a_prior a |}.
Definition set_inverse (g : ApplyFun) (a : Attrs) : Attrs :=
  {| a_input_dim := a_input_dim a; a_info := a_info a;
     a_bijector := a_bijector a; a_params := a_params a;
     a_forward := a_forward a; a_inverse := Some g;
     a_prior := a_prior a |}.
Definition set_prior (p : Prior) (a : Attrs) : Attrs :=
  {| a_input_dim := a_input_dim a; a_info := a_info a;
     a_bijector := a_bijector a; a_params := a_params a;
     a_forward := a_forward a; a_inverse := a_inverse a;
     a_prior := Some p |}.

(** [with open(file, "rb") as handle: dill.load(handle)]. *)
Definition dill_load (file : string) : M InitState SaveDict :=
  fs ← gets files;
  match fs !! file with
  | Some d => mret d
  | None => raise (FileNotFoundError file)
  end.

Definition __init__ (input_dim : pyobj) (bijector : option Bijector)
    (file : option string) (info : Info) : M InitState unit :=
  if is_None input_dim && bool_decide (file = None) then
    raise (ValueError "User must provide either input_dim or file")
  else if bool_decide (file <> None)
          && (negb (is_None input_dim) || bool_decide (bijector <> None)) then
    raise (ValueError
      "If file is provided, please do not provide input_dim or bijector")
  else
    (* [dim] is what [self.input_dim] holds after either branch *)
    '(dim, forward_fun, inverse_fun) ←
      match file with
      | Some path =>
          save_dict ← dill_load path;
          assign (set_input_dim (sd_input_dim save_dict));;
          assign (set_info (sd_info save_dict));;
          assign (set_bijector (sd_bijector save_dict));;
          assign (set__params (sd_params save_dict));;
          let '(_, forward_fun, inverse_fun) :=
            sd_bijector save_dict (PRNGKey 0) (sd_input_dim save_dict) in
          mret (sd_input_dim save_dict, forward_fun, inverse_fun)
      | None =>
          match input_dim with
          | PyInt d =>
              if 0 <? d then
                assign (set_input_dim d);;
                assign (set_info info);;
                let b := match bijector with
                         | None => RollingSplineCoupling d
                         | Some b => b
                         end in
                assign (set_bijector b);;
                let '(params, forward_fun, inverse_fun) := b (PRNGKey 0) d in
                assign (set__params params);;
                mret (d, forward_fun, inverse_fun)
              else raise (ValueError "input_dim must be a positive integer")
          | _ => raise (ValueError "input_dim must be a positive integer")
          end
      end;
    assign (set_forward forward_fun);;
    assign (set_inverse inverse_fun);;
    assign (set_prior (Normal dim)).

(** The object whose attributes are all assigned. *)
Definition seal (a : Attrs) : option Flow :=
  d ← a_input_dim a; i ← a_info a; b ← a_bijector a; p ← a_params a;
  fw ← a_forward a; iv ← a_inverse a; pr ← a_prior a;
  Some {| input_dim := d; info := i; _bijector := b; _params := p;
          _forward := fw; _inverse := iv; prior := pr |}.

(** [Flow(input_dim, bijector, file, info)] over the files [fs]. *)
Definition Flow_new (input_dim : pyobj) (bijector : option Bijector)
    (file : option string) (info : Info) (fs : gmap string SaveDict)
  : exn + Flow :=
  match __init__ input_dim bijector file info
                 {| attrs := no_attrs; files := fs |} with
  | (inr _, st) =>
      match seal (attrs st) with
      | Some f => inr f
      | None => inl (AttributeError "Flow")
      end
  | (inl e, _) => inl e
  end.

(** ** Persistence and the transform primitives *)

Definition save (file : string) : M State unit :=
  f ← gets self;
  let save_dict :=
    {| sd_input_dim := input_dim f; sd_info := info f;
       sd_bijector := _bijector f; sd_params := _params f |} in
  dill_dump save_dict file.

Definition forward (inputs : matrix) : M State matrix :=
  f ← gets self;
  mret (fst (_forward f (_params f) inputs)).

Definition inverse (inputs : matrix) : M State matrix :=
  f ← gets self;
  mret (fst (_inverse f (_params f) inputs)).

Definition sample (nsamples : Z) (seed : option Z) : M State matrix :=
  f ← gets self;
  let u := prior_sample (prior f) nsamples seed in
  x ← forward u;
  mret x.

Definition log_prob (inputs : matrix) : M State vector :=
  f ← gets self;
  let '(u, log_det) := _inverse f (_params f) inputs in
  let log_prob := prior_log_prob (prior f) u in
  mret (nan_to_num (vadd log_prob log_det) NINF).

(** The vector [log_prob] returns, as a function of the receiver. *)
Definition log_density (f : Flow) (inputs : matrix) : vector :=
  nan_to_num
    (vadd (prior_log_prob (prior f) (fst (_inverse f (_params f) inputs)))
          (snd (_inverse f (_params f) inputs)))
    NINF.

(** ** The grid posterior *)

Definition mode_error (mode : string) : string :=
  "mode `" +:+ mode +:+
  "` is invalid. Accepted values are `auto`, `insert`, and `replace`".

(** The [if]/[elif] chain that validates the arguments; it hands on
    the integer of [column]. *)
Definition validate (f : Flow) (ncols : nat) (column : pyobj) (mode : string)
  : exn + Z :=
  if negb (existsb (String.eqb mode) ["auto"; "insert"; "replace"]) then
    inl (ValueError (mode_error mode))
  else if String.eqb mode "insert"
          && negb (Z.of_nat ncols =? input_dim f - 1) then
    inl (ValueError
      "When using mode=`insert`, inputs.shape[1] must be equal to input_dim-1")
  else if String.eqb mode "replace"
          && negb (Z.of_nat ncols =? input_dim f) then
    inl (ValueError
      "When using mode=`insert`, inputs.shape[1] must be equal to input_dim")
  else if negb (existsb (Z.eqb (Z.of_nat ncols))
                        [input_dim f; input_dim f - 1]) then
    inl (ValueError
      "inputs.shape[1] must be equal to input_dim or input_dim-1")
  else
    match column with
    | PyInt c => inr c
    | _ => inl (ValueError "`column` must be an integer")
    end.

(** What [mode == "auto"] is turned into. *)
Definition resolve_mode (f : Flow) (ncols : nat) (mode : string) : string :=
  if String.eqb mode "auto" then
    if Z.of_nat ncols =? input_dim f - 1 then "insert"
    else if Z.of_nat ncols =? input_dim f then "replace"
    else mode
  else mode.

(** The batch [log_prob] is evaluated on: one row per input row and
    grid point. *)
Definition expand (mode : string) (inputs : matrix) (grid : vector)
    (column : Z) : matrix :=
  let nrows := nrows inputs in
  if String.eqb mode "insert" then
    np_hstack (np_repeat (cols_to column inputs) (length grid))
              [as_column (np_tile grid nrows);
               np_repeat (cols_from column inputs) (length grid)]
  else if String.eqb mode "replace" then
    index_update_col (np_repeat inputs (length grid)) column
                     (np_tile grid nrows)
  else inputs.

(** [pdfs / np.trapz(y=pdfs, x=grid).reshape(-1, 1)]. *)
Definition normalize (pdfs : matrix) (grid : vector) : matrix :=
  Matrix (map (fun r => map (fun y => div y (trapz r grid)) r) (rows pdfs))
         (ncols pdfs).

Definition exp_2d (a : matrix) : matrix :=
  Matrix (map (map np_exp) (rows a)) (ncols a).

(** [inputs] is a two-dimensional array, so that [inputs.shape]
    unpacks into [nrows, ncols]. *)
Definition posterior (inputs : matrix) (grid : vector) (column : pyobj)
    (mode : string) : M State matrix :=
  f ← gets self;
  let '(nrows, ncols) := shape inputs in
  column ← lift (validate f ncols column mode);
  let mode := resolve_mode f ncols mode in
  let inputs := expand mode inputs grid column in
  lp ← log_prob inputs;
  log_prob ← lift (reshape lp nrows (length grid));
  let pdfs := exp_2d log_prob in
  let pdfs := normalize pdfs grid in
  mret (nan_to_num_2d pdfs zero).

(** ** Training *)

(** [(opt_init, opt_update, get_params)]. *)
Definition Optimizer (OptState : Type) : Type :=
  (Params -> OptState) * (Z -> Params -> OptState -> OptState)
  * (OptState -> Params).

Definition loss (f : Flow) (params : Params) (x : matrix) : float :=
  let '(u, log_det) := _inverse f params x in
  let log_prob := prior_log_prob (prior f) u in
  neg (np_mean (vadd log_prob log_det)).

Section Train.

Context {OptState : Type}.
Variable f : Flow.
Variable optimizer : Optimizer OptState.

Definition opt_init := fst (fst optimizer).
Definition opt_update := snd (fst optimizer).
Definition get_params := snd optimizer.

Definition step (i : Z) (opt_state : OptState) (x : matrix) : OptState :=
  let params := get_params opt_state in
  let gradients := grad (loss f) params x in
  opt_update i gradients opt_state.

(** The variables the epoch loop assigns. *)
Record Vars := {
  v_opt_state : OptState;
  v_itercount : Z;
  v_rng : Key;
  v_losses : list float
}.

(** The batch loop of one epoch over the permuted data [X], from the
    optimizer state and the count of steps taken so far. *)
Definition run_batches (X : matrix) (batch_size : Z) (idxs : list Z)
    (start : OptState * Z) : OptState * Z :=
  fold_left
    (fun '(opt_state, itercount) batch_idx =>
       (step itercount opt_state
             (rows_slice batch_idx (batch_idx + batch_size) X),
        itercount + 1))
    idxs start.

(** [max(int(0.05 * epochs), 1)], the integer part taken exactly. *)
Definition print_every (epochs : Z) : Z := Z.max (epochs / 20) 1.

Definition epoch_body (inputs : matrix) (epochs batch_size : Z)
    (verbose : bool) (epoch : Z) (v : Vars) : M State Vars :=
  let '(permute_rng, rng) := random_split (v_rng v) in
  let X := random_permutation permute_rng inputs in
  idxs ← lift (py_range 0 (Z.of_nat (nrows X)) batch_size);
  let '(opt_state, itercount) :=
    run_batches X batch_size idxs (v_opt_state v, v_itercount v) in
  let params := get_params opt_state in
  let l := loss f params inputs in
  when (verbose && (epoch mod print_every epochs =? 0)) (print l);;
  mret {| v_opt_state := opt_state; v_itercount := itercount;
          v_rng := rng; v_losses := v_losses v ++ [l] |}.

(** The batch starts of an epoch over [n] rows. *)
Definition batch_starts (n : nat) (batch_size : Z) : list Z :=
  match py_range 0 (Z.of_nat n) batch_size with
  | inr idxs => idxs
  | inl _ => []
  end.

(** The optimizer state, the step count and the random key after [k]
    epochs: each epoch permutes the inputs with a key split off the
    running one and takes one step per batch. *)
Fixpoint state_after (inputs : matrix) (batch_size seed : Z) (k : nat)
  : OptState * Z * Key :=
  match k with
  | O => (opt_init (_params f), 0, PRNGKey seed)
  | S k' =>
      let '(opt_state, itercount, rng) :=
        state_after inputs batch_size seed k' in
      let '(permute_rng, rng') := random_split rng in
      let X := random_permutation permute_rng inputs in
      let '(opt_state', itercount') :=
        run_batches X batch_size (batch_starts (nrows X) batch_size)
                    (opt_state, itercount) in
      (opt_state', itercount', rng')
  end.

Definition params_after (inputs : matrix) (batch_size seed : Z) (k : nat)
  : Params :=
  get_params (fst (fst (state_after inputs batch_size seed k))).

End Train.

Definition train {OptState} (inputs : matrix) (epochs batch_size : Z)
    (optimizer : Optimizer OptState) (seed : Z) (verbose : bool)
  : M State (list float) :=
  f ← gets self;
  let opt_state := opt_init optimizer (_params f) in
  let losses := [loss f (_params f) inputs] in
  when verbose (print (loss f (_params f) inputs));;
  epoch_list ← lift (py_range 0 epochs 1);
  v ← for_each epoch_list
        (epoch_body f optimizer inputs epochs batch_size verbose)
        {| v_opt_state := opt_state; v_itercount := 0;
           v_rng := PRNGKey seed; v_losses := losses |};
  modify (fun st =>
    {| self := set_params (get_params optimizer (v_opt_state v)) (self st);
       disk := disk st; stdout := stdout st |});;
  mret (v_losses v).

(** ** Vocabulary of the statements *)

(** The state [st] with [out] as the printed losses. *)
Definition with_stdout (out : list float) (st : State) : State :=
  {| self := self st; disk := disk st; stdout := out |}.

(** [isinstance(o, int) and o > 0]. *)
Definition positive_int (o : pyobj) : bool :=
  match o with PyInt d => 0 <? d | _ => false end.

(** The attributes of a constructed object. *)
Definition attrs_of (f : Flow) : Attrs :=
  {| a_input_dim := Some (input_dim f); a_info := Some (info f);
     a_bijector := Some (_bijector f); a_params := Some (_params f);
     a_forward := Some (_forward f); a_inverse := Some (_inverse f);
     a_prior := Some (prior f) |}.

(** The object the constructor builds from a pickled dictionary. *)
Definition restored (d : SaveDict) : Flow :=
  let made := sd_bijector d (PRNGKey 0) (sd_input_dim d) in
  {| input_dim := sd_input_dim d; info := sd_info d;
     _bijector := sd_bijector d; _params := sd_params d;
     _forward := snd (fst made); _inverse := snd made;
     prior := Normal (sd_input_dim d) |}.

(** The object the constructor builds from a dimension. *)
Definition fresh (d : Z) (bijector : option Bijector) (info0 : Info) : Flow :=
  let b := match bijector with
           | None => RollingSplineCoupling d
           | Some b => b
           end in
  let made := b (PRNGKey 0) d in
  {| input_dim := d; info := info0; _bijector := b;
     _params := fst (fst made); _forward := snd (fst made);
     _inverse := snd made; prior := Normal d |}.

(** The invariant of a constructed object: its apply functions are
    the ones its bijector makes for the fixed key and its dimension,
    and its prior is the normal one of that dimension. *)
Definition constructed (f : Flow) : Prop :=
  _forward f = snd (fst (_bijector f (PRNGKey 0) (input_dim f)))
  /\ _inverse f = snd (_bijector f (PRNGKey 0) (input_dim f))
  /\ prior f = Normal (input_dim f).

(** The row built for grid value [g] from the input row [r]. *)
Definition variant (mode : string) (column : Z) (r : list float) (g : float)
  : list float :=
  if String.eqb mode "insert"
  then slice_to column r ++ [g] ++ slice_from column r
  else set_item column g r.

(** What the class relies on from its bijector and prior: one
    log-determinant and one log-density per row of the batch. *)
Definition shape_contract (f : Flow) : Prop :=
  forall x,
    length (snd (_inverse f (_params f) x)) = nrows x
    /\ length (prior_log_prob (prior f) (fst (_inverse f (_params f) x)))
       = nrows x.

(** Every row of an array has as many entries as its shape says. *)
Definition rectangular (a : matrix) : Prop :=
  Forall (fun r => length r = ncols a) (rows a).


(** ** Further vocabulary *)

(** The losses the epoch loop prints over the epochs [k, k + n): the
    loss after epoch [j], for the [j] the schedule selects. *)
Definition printed_losses {OptState} (f : Flow)
    (optimizer : Optimizer OptState) (inputs : matrix)
    (epochs batch_size seed : Z) (verbose : bool) (k n : nat) : list float :=
  map (fun j => loss f (params_after f optimizer inputs batch_size seed (S j))
                     inputs)
      (List.filter
         (fun j => verbose && (Z.of_nat j mod print_every epochs =? 0))
         (seq k n)).

(** [np.delete(a, k, axis=1)] for a position [k] of the array. *)
Definition np_delete_col (a : matrix) (k : nat) : matrix :=
  Matrix (map (delete k) (rows a)) (ncols a - 1).

(** [a.endswith("/")]. *)
Fixpoint endswith_sep (a : string) : bool :=
  match a with
  | EmptyString => false
  | String c EmptyString => Ascii.eqb c (Ascii.ascii_of_nat 47)
  | String _ a' => endswith_sep a'
  end.

(** [os.path.join(a, b)] for a relative [b], with [/] as separator. *)
Definition os_path_join (a b : string) : string :=
  if String.eqb a "" || endswith_sep a then a +:+ b
  else a +:+ "/" +:+ b.

(** [example_flow()] of [pzflow/examples/examples.py], for the
    directory [this_dir] that [os.path.split(__file__)] gives and the
    [None] the constructor takes as [info]. *)
Definition example_flow (this_dir : string) (info_none : Info)
    (fs : gmap string SaveDict) : exn + Flow :=
  let flow_path := os_path_join this_dir "example-flow.dill" in
  Flow_new PyNone None (Some flow_path) info_none fs.

End Flow.

(** ** A reference engine

    A small engine to run the methods on: a one-parameter shift
    bijector, the standard normal prior by its textbook formula, a
    forward-difference gradient, and an exponential by scaling and
    squaring.  The general theorems hold for every engine; closed
    examples are evaluated on this one. *)

Module Ref.

Definition ltb (x y : float) : bool := SFltb x y.

(** [exp x] as [(p (x / 256)) ^ 256] with [p] the Taylor polynomial of
    degree 6; exact at the zeros, the infinities and NaN, zero below
    the underflow threshold and infinite above the overflow one. *)
Definition exp_poly (y : float) : float :=
  fold_right (fun k acc => add one (mul (div y (of_Z k)) acc)) one
             [1; 2; 3; 4; 5; 6].

Definition exp (x : float) : float :=
  match x with
  | S754_nan => NAN
  | S754_infinity false => PINF
  | S754_infinity true => zero
  | S754_zero _ => one
  | S754_finite _ _ _ =>
      if ltb x (of_Z (-104)) then zero
      else if ltb (of_Z 89) x then PINF
      else Nat.iter 8 (fun y => mul y y) (exp_poly (div x (of_Z 256)))
  end.

Definition mean (x : vector) : float :=
  div (np_sum x) (of_Z (Z.of_nat (length x))).

(** [log (2 * pi) / 2] in binary32. *)
Definition half_log_2pi : float := scaled 15417230 (-24).

(** The standard normal in [d] dimensions. *)
Definition normal_log_prob (d : Z) (u : matrix) : vector :=
  map (fun r => sub (mul (neg half) (np_sum (map (fun x => mul x x) r)))
                    (mul (of_Z d) half_log_2pi))
      (rows u).

Definition normal (d : Z) : Prior :=
  {| prior_sample := fun n _ =>
       Matrix (replicate (Z.to_nat n) (replicate (Z.to_nat d) zero))
              (Z.to_nat d);
     prior_log_prob := normal_log_prob d |}.

(** The bijector [x |-> x + p], with zero log-determinant. *)
Definition shift (by_ : float -> float -> float) : apply_fun float :=
  fun p x =>
    (Matrix (map (map (fun y => by_ y p)) (rows x)) (ncols x),
     replicate (nrows x) zero).

Definition shift_bijector : bijector_of float Z :=
  fun _ _ => (zero, shift add, shift sub).

Definition step_size : float := scaled 1 (-10).

(** A forward difference standing for [jax.grad]. *)
Definition diff_grad (l : float -> matrix -> float) (p : float) (x : matrix)
  : float :=
  div (sub (l (add p step_size) x) (l p x)) step_size.

#[global] Instance engine : Engine := {|
  Params := float;
  Info := string;
  Key := Z;
  PRNGKey := fun seed => seed;
  random_split := fun k => (2 * k + 1, 2 * k + 2);
  random_permutation := fun k x =>
    Matrix (rotate (Z.to_nat k) (rows x)) (ncols x);
  grad := diff_grad;
  np_exp := exp;
  np_mean := mean;
  RollingSplineCoupling := fun _ => shift_bijector;
  Normal := normal
|}.

(** Plain gradient descent as the optimizer triple. *)
Definition sgd : Optimizer float :=
  (fun p => p, fun _ g s => sub s (mul step_size g), fun s => s).

Definition world (f : Flow) : State :=
  {| self := f; disk := ∅; stdout := [] |}.

(** The flows [Flow(1, shift_bijector)] and [Flow(2, shift_bijector)],
    a coordinate far outside the bulk of the prior, and a batch of
    three points. *)
Definition flow1 : Flow := fresh 1 (Some shift_bijector) "demo".
Definition flow2 : Flow := fresh 2 (Some shift_bijector) "demo".
Definition batch3 : matrix := Matrix [[one]; [half]; [of_Z 2]] 1.

End Ref.

(** ** Tactics *)

Ltac case_strings :=
  repeat match goal with
  | |- context [String.eqb ?a ?b] => destruct (String.eqb_spec a b); subst
  | H : context [String.eqb ?a ?b] |- _ =>
      destruct (String.eqb_spec a b); subst
  end.

Ltac case_ints :=
  repeat match goal with
  | |- context [Z.eqb ?a ?b] => destruct (Z.eqb_spec a b)
  | H : context [Z.eqb ?a ?b] |- _ => destruct (Z.eqb_spec a b)
  end.

Ltac case_floats x nan :=
  destruct x as [| [] | |], nan as [| [] | |];
  try discriminate; reflexivity.

(** * Properties *)

Section Properties.

Context `{E : Engine}.

Implicit Types (st : State) (f : Flow) (inputs : matrix) (grid : vector).

(** ** Unfolding the methods *)

Lemma log_prob_run inputs st :
  log_prob inputs st = (inr (log_density (self st) inputs), st).
Proof.
  unfold log_prob, log_density, mbind, M_bind, gets, mret, M_ret.
  destruct (_inverse (self st) (_params (self st)) inputs) as [u log_det].
  reflexivity.
Qed.

Lemma posterior_run inputs grid column mode st :
  posterior inputs grid column mode st =
  (match validate (self st) (ncols inputs) column mode with
   | inl e => inl e
   | inr c =>
       let batch :=
         expand (resolve_mode (self st) (ncols inputs) mode) inputs grid c in
       match reshape (log_density (self st) batch)
                     (nrows inputs) (length grid) with
       | inl e => inl e
       | inr lp => inr (nan_to_num_2d (normalize (exp_2d lp) grid) zero)
       end
   end, st).
Proof.
  unfold posterior, shape, mbind, M_bind, gets, lift, mret, M_ret.
  destruct (validate (self st) (ncols inputs) column mode) as [e|c];
    [reflexivity|].
  rewrite log_prob_run. cbn zeta.
  destruct (reshape _ _ _); reflexivity.
Qed.

Lemma reshape_error v n k e : reshape v n k = inl e -> exists m, e = TypeError m.
Proof.
  unfold reshape. destruct (_ =? _)%nat; [discriminate|].
  intros [= <-]. eauto.
Qed.

(** ** [log_prob] *)

Lemma map_fmap {A B} (g : A -> B) (l : list A) : map g l = g <$> l.
Proof. induction l; cbn; congruence. Qed.


Lemma nan_to_num1_finite nan x :
  isfinite nan = true -> isfinite (nan_to_num1 nan x) = true.
Proof. intros Hn. case_floats x nan. Qed.

(** With a fill that is not NaN every entry comes out finite, an
    infinite fill being replaced in its turn. *)
Lemma nan_to_num1_clamped nan x :
  isnan nan = false -> isfinite (nan_to_num1 nan x) = true.
Proof. intros Hn. case_floats x nan. Qed.


Lemma nan_to_num1_zero x :
  nan_to_num1 zero x
  = if isnan x then zero
    else if isposinf x then finfo_max
    else if isneginf x then finfo_min
    else x.
Proof. destruct x as [| [] | |]; reflexivity. Qed.


(** What the call does with a NaN entry of the sum.  It passes
    [nan=np.NINF], and the negative infinity put in for the NaN is
    replaced in its turn: the entry comes back as the most negative
    finite value, not as negative infinity, and [log_prob] returns
    finite entries only. *)
Lemma log_prob_nan_entry_clamped inputs st :
  let f := self st in
  let latent := fst (_inverse f (_params f) inputs) in
  let log_det := snd (_inverse f (_params f) inputs) in
  let total := vadd (prior_log_prob (prior f) latent) log_det in
  exists out,
    log_prob inputs st = (inr out, st)
    /\ (forall i, total !! i = Some NAN -> out !! i = Some finfo_min)
    /\ Forall (fun y => isfinite y = true) out.
Proof.
  intros f latent log_det total.
  exists (log_density f inputs). unfold log_density, nan_to_num.
  fold latent log_det total. split; [apply log_prob_run|]. split.
  - intros i Hx. rewrite map_fmap, list_lookup_fmap, Hx. reflexivity.
  - rewrite map_fmap. apply Forall_fmap, Forall_true. intros x. cbn.
    apply nan_to_num1_clamped. reflexivity.
Qed.

(** ** Validation of [posterior] *)

Lemma validate_error f n column mode e :
  validate f n column mode = inl e -> exists msg, e = ValueError msg.
Proof.
  unfold validate.
  repeat match goal with
  | |- context [if ?b then _ else _] => destruct b
  end; try (intros [= <-]; eauto).
  destruct column; intros [= <-]; eauto.
Qed.

Lemma validate_inl_iff f n column mode :
  (exists msg, validate f n column mode = inl (ValueError msg)) <->
  (mode <> "auto" /\ mode <> "insert" /\ mode <> "replace")
  \/ (mode = "insert" /\ Z.of_nat n <> input_dim f - 1)
  \/ (mode = "replace" /\ Z.of_nat n <> input_dim f)
  \/ (Z.of_nat n <> input_dim f /\ Z.of_nat n <> input_dim f - 1)
  \/ isinstance_int column = false.
Proof.
  unfold validate. cbn [existsb]. split.
  - intros [msg H]. case_strings; case_ints; cbn in H; try discriminate H;
      try (destruct column; cbn in *; try discriminate H); try tauto;
      try (right; right; right; left; split; congruence);
      try (left; repeat split; congruence).
  - intros H. case_strings; case_ints; cbn; eauto;
      try (destruct column; cbn in *; eauto);
      exfalso; intuition (try congruence; try lia).
Qed.

(** C4: [posterior] raises the [ValueError] of its validation exactly
    when [mode] is none of auto, insert and replace, or [mode] is
    insert and the column count is not [input_dim - 1], or [mode] is
    replace and the column count is not [input_dim], or the column
    count is neither, or [column] is not an integer; the error is the
    one the validation chain decides from these arguments alone, and
    the state is then what it was before the call. *)
Theorem posterior_validation inputs grid column mode st :
  let f := self st in
  let n := ncols inputs in
  ((exists msg,
       fst (posterior inputs grid column mode st) = inl (ValueError msg)) <->
   (mode <> "auto" /\ mode <> "insert" /\ mode <> "replace")
   \/ (mode = "insert" /\ Z.of_nat n <> input_dim f - 1)
   \/ (mode = "replace" /\ Z.of_nat n <> input_dim f)
   \/ (Z.of_nat n <> input_dim f /\ Z.of_nat n <> input_dim f - 1)
   \/ isinstance_int column = false)
  /\ (forall msg,
        fst (posterior inputs grid column mode st) = inl (ValueError msg) ->
        validate f n column mode = inl (ValueError msg)
        /\ posterior inputs grid column mode st = (inl (ValueError msg), st)).
Proof.
  intros f n.
  assert (Hrun : forall msg,
    fst (posterior inputs grid column mode st) = inl (ValueError msg) ->
    validate f n column mode = inl (ValueError msg)).
  { intros msg. rewrite posterior_run. cbn [fst]. fold f n.
    destruct (validate f n column mode) as [e|c]; [congruence|].
    cbn zeta. destruct (reshape _ _ _) as [e|lp] eqn:Hr; [|discriminate].
    apply reshape_error in Hr as [m ->]. discriminate. }
  split.
  - rewrite <- validate_inl_iff. fold f n. split.
    + intros [msg H]. eauto.
    + intros [msg H]. exists msg. rewrite posterior_run. cbn [fst].
      fold f n. rewrite H. reflexivity.
  - intros msg H. pose proof (Hrun msg H) as Hv. split; [exact Hv|].
    rewrite posterior_run. fold f n. rewrite Hv. reflexivity.
Qed.

(** C7: with [mode = "auto"], a batch of [input_dim] columns gives
    what [mode = "replace"] gives on the same arguments, and a batch of
    [input_dim - 1] columns what [mode = "insert"] gives, result and
    state alike. *)
Theorem posterior_auto_mode inputs grid column st :
  (Z.of_nat (ncols inputs) = input_dim (self st) ->
   posterior inputs grid column "auto" st
   = posterior inputs grid column "replace" st)
  /\ (Z.of_nat (ncols inputs) = input_dim (self st) - 1 ->
      posterior inputs grid column "auto" st
      = posterior inputs grid column "insert" st).
Proof.
  split; intros Hn; rewrite !posterior_run;
    unfold validate, resolve_mode; cbn [existsb String.eqb Ascii.eqb Bool.eqb
      andb orb negb]; rewrite Hn.
  - rewrite Z.eqb_refl.
    replace (input_dim (self st) =? input_dim (self st) - 1) with false
      by (symmetry; apply Z.eqb_neq; lia).
    reflexivity.
  - rewrite Z.eqb_refl. cbn [negb orb andb]. rewrite Bool.orb_true_r.
    reflexivity.
Qed.

(** ** Training *)

Section TrainProofs.

Context {OptState : Type}.
Variable optimizer : Optimizer OptState.
Variables (inputs : matrix) (epochs batch_size seed : Z) (verbose : bool).

Lemma py_range_nonzero start stop step :
  step <> 0 -> exists idxs, py_range start stop step = inr idxs.
Proof.
  intros H. unfold py_range. destruct (Z.eqb_spec step 0); [lia|]. eauto.
Qed.

Lemma py_range_count n :
  0 <= n -> py_range 0 n 1 = inr (map (fun k => Z.of_nat k) (seq 0 (Z.to_nat n))).
Proof.
  intros H. unfold py_range. cbn [Z.eqb Z.ltb Z.compare].
  replace ((n - 0 + 1 - 1) / 1) with n by (rewrite Z.div_1_r; lia).
  f_equal. apply map_ext. intros k. lia.
Qed.

(** One epoch of the loop: it takes [state_after k] to
    [state_after (S k)], appends the loss of the new parameters on the
    inputs, and touches nothing but the printed losses. *)
Lemma epoch_body_run f (k : nat) (epoch : Z) (ls : list float) st :
  batch_size <> 0 ->
  let '(os, i, rng) := state_after f optimizer inputs batch_size seed k in
  let '(os', i', rng') :=
    state_after f optimizer inputs batch_size seed (S k) in
  exists out,
    epoch_body f optimizer inputs epochs batch_size verbose epoch
      {| v_opt_state := os; v_itercount := i; v_rng := rng; v_losses := ls |}
      st
    = (inr {| v_opt_state := os'; v_itercount := i'; v_rng := rng';
              v_losses := ls ++ [loss f (get_params optimizer os') inputs] |},
       with_stdout out st).
Proof.
  intros Hb. cbn [state_after].
  destruct (state_after f optimizer inputs batch_size seed k)
    as [[os i] rng].
  unfold epoch_body. cbn [v_rng v_opt_state v_itercount v_losses].
  destruct (random_split rng) as [permute_rng rng'].
  unfold batch_starts.
  destruct (py_range_nonzero 0
    (Z.of_nat (nrows (random_permutation permute_rng inputs))) batch_size Hb)
    as [idxs ->].
  unfold mbind, M_bind, lift.
  destruct (run_batches f optimizer _ batch_size idxs (os, i)) as [os' i'].
  unfold when, print, modify, mret, M_ret.
  destruct (verbose && _); unfold with_stdout; cbn.
  - eexists. reflexivity.
  - exists (stdout st). destruct st; reflexivity.
Qed.

Lemma epochs_run f (n : nat) : forall (k : nat) (ls : list float) st,
  batch_size <> 0 ->
  let '(os, i, rng) := state_after f optimizer inputs batch_size seed k in
  let '(os', i', rng') :=
    state_after f optimizer inputs batch_size seed (k + n) in
  exists out,
    for_each (map (fun j => Z.of_nat j) (seq k n))
      (epoch_body f optimizer inputs epochs batch_size verbose)
      {| v_opt_state := os; v_itercount := i; v_rng := rng; v_losses := ls |}
      st
    = (inr {| v_opt_state := os'; v_itercount := i'; v_rng := rng';
              v_losses :=
                ls ++ map (fun j =>
                             loss f (params_after f optimizer inputs
                                       batch_size seed (S j)) inputs)
                          (seq k n) |},
       with_stdout out st).
Proof.
  induction n as [|n IH]; intros k ls st Hb.
  - rewrite Nat.add_0_r.
    destruct (state_after f optimizer inputs batch_size seed k)
      as [[os i] rng].
    exists (stdout st). cbn. rewrite app_nil_r. destruct st; reflexivity.
  - pose proof (epoch_body_run f k (Z.of_nat k) ls st Hb) as Hstep.
    specialize (IH (S k)).
    replace (k + S n)%nat with (S k + n)%nat by lia.
    unfold params_after in *.
    destruct (state_after f optimizer inputs batch_size seed k)
      as [[os i] rng].
    destruct (state_after f optimizer inputs batch_size seed (S k))
      as [[os1 i1] rng1] eqn:H1.
    destruct Hstep as [out1 Hstep].
    specialize (IH (ls ++ [loss f (get_params optimizer os1) inputs])
                   (with_stdout out1 st) Hb).
    destruct (state_after f optimizer inputs batch_size seed (S k + n))
      as [[os' i'] rng'].
    destruct IH as [out IH]. exists out.
    cbn [seq map for_each]. unfold mbind, M_bind at 1.
    rewrite Hstep, IH. rewrite H1. cbn [fst]. rewrite <- app_assoc.
    reflexivity.
Qed.

Lemma epoch_body_frame f v epoch st :
  let r := epoch_body f optimizer inputs epochs batch_size verbose epoch v st in
  self (snd r) = self st /\ disk (snd r) = disk st.
Proof.
  unfold epoch_body. destruct (random_split (v_rng v)) as [permute_rng rng].
  unfold mbind, M_bind, lift.
  destruct (py_range 0 _ batch_size) as [e|idxs]; [cbn; auto|].
  destruct (run_batches f optimizer _ batch_size idxs _) as [os i].
  unfold when, print, modify, mret, M_ret.
  destruct (verbose && _); cbn; auto.
Qed.

Lemma for_each_frame f (l : list Z) : forall v st,
  let r := for_each l
             (epoch_body f optimizer inputs epochs batch_size verbose) v st in
  self (snd r) = self st /\ disk (snd r) = disk st.
Proof.
  induction l as [|epoch l IH]; intros v st; cbn; [auto|].
  unfold mbind, M_bind.
  pose proof (epoch_body_frame f v epoch st) as [Hs Hd]. cbn zeta in *.
  destruct (epoch_body f optimizer inputs epochs batch_size verbose epoch v st)
    as [[e|v'] st1]; cbn [snd] in *; [auto|].
  destruct (IH v' st1) as [Hs' Hd']. split; congruence.
Qed.

Lemma set_params_same f : set_params (_params f) f = f.
Proof. destruct f; reflexivity. Qed.

(** [train] changes no attribute but [_params], changes that one only
    when it returns, and leaves the files alone. *)
Lemma train_frame st :
  let r := train inputs epochs batch_size optimizer seed verbose st in
  (exists p, self (snd r) = set_params p (self st))
  /\ match fst r with
     | inl _ => self (snd r) = self st
     | inr _ => True
     end
  /\ disk (snd r) = disk st.
Proof.
  unfold train, mbind, M_bind, gets, when, lift.
  set (f := self st).
  assert (Hp : exists st1, self st1 = f /\ disk st1 = disk st /\
     (if verbose then print (loss f (_params f) inputs) else mret tt) st
     = (inr tt, st1)).
  { destruct verbose; unfold print, modify, mret, M_ret; eexists;
      (split; [|split; [|reflexivity]]); reflexivity. }
  destruct Hp as (st1 & Hs1 & Hd1 & ->).
  destruct (py_range 0 epochs 1) as [e|l].
  { cbn. rewrite Hs1. repeat split; auto.
    exists (_params f). symmetry. apply set_params_same. }
  pose proof (for_each_frame f l
    {| v_opt_state := opt_init optimizer (_params f); v_itercount := 0;
       v_rng := PRNGKey seed; v_losses := [loss f (_params f) inputs] |} st1)
    as [Hs Hd]. cbn zeta in *.
  destruct (for_each l _ _ st1) as [[e|v] st2]; cbn [fst snd] in *.
  - rewrite Hs, Hs1. repeat split; try congruence.
    exists (_params f). symmetry. apply set_params_same.
  - unfold modify, mret, M_ret. cbn. rewrite Hs, Hs1.
    repeat split; eauto; congruence.
Qed.

(** C3, as amended: for a call of [train] with [epochs >= 0] and a
    [batch_size] other than zero, the optimizer state starts as
    [opt_init] of the current parameters; the call returns [epochs + 1]
    losses; the first is the loss of the parameters held before
    training on the full inputs; the one after epoch [k] is the loss on
    the full, unpermuted inputs of the parameters extracted from the
    optimizer state after all batches of that epoch; and on return the
    parameters are those extracted from the final optimizer state, the
    other attributes and the files being as before. *)
Theorem train_losses st :
  0 <= epochs -> batch_size <> 0 ->
  let f := self st in
  let p := params_after f optimizer inputs batch_size seed in
  exists losses out,
    train inputs epochs batch_size optimizer seed verbose st
    = (inr losses,
       {| self := set_params (p (Z.to_nat epochs)) f;
          disk := disk st; stdout := out |})
    /\ fst (fst (state_after f optimizer inputs batch_size seed 0))
       = opt_init optimizer (_params f)
    /\ Z.of_nat (length losses) = epochs + 1
    /\ losses !! 0%nat = Some (loss f (_params f) inputs)
    /\ (forall k, (k < Z.to_nat epochs)%nat ->
          losses !! S k = Some (loss f (p (S k)) inputs)).
Proof.
  intros He Hb f p.
  pose proof (epochs_run f (Z.to_nat epochs) 0) as Hrun.
  cbn [state_after Nat.add] in Hrun.
  exists (loss f (_params f) inputs
          :: map (fun j => loss f (p (S j)) inputs)
                 (seq 0 (Z.to_nat epochs))).
  assert (Hp : exists st1, self st1 = f /\ disk st1 = disk st /\
     (if verbose then print (loss f (_params f) inputs) else mret tt) st
     = (inr tt, st1)).
  { destruct verbose; unfold print, modify, mret, M_ret; eexists;
      (split; [|split; [|reflexivity]]); reflexivity. }
  destruct Hp as (st1 & Hs1 & Hd1 & Hprint).
  specialize (Hrun [loss f (_params f) inputs] st1 Hb).
  unfold p, params_after.
  destruct (state_after f optimizer inputs batch_size seed (Z.to_nat epochs))
    as [[os i] rng] eqn:Hfinal.
  destruct Hrun as [out Hrun]. exists out. split; [|split; [|split; [|split]]].
  - unfold train, mbind, M_bind, gets, when, lift. fold f.
    rewrite Hprint, (py_range_count epochs He), Hrun.
    unfold modify, mret, M_ret, with_stdout. cbn. rewrite Hs1, Hd1.
    reflexivity.
  - reflexivity.
  - cbn [length]. rewrite length_map, length_seq. lia.
  - reflexivity.
  - intros k Hk. rewrite lookup_cons.
    rewrite map_fmap, list_lookup_fmap, lookup_seq_lt by exact Hk.
    reflexivity.
Qed.

End TrainProofs.

(** ** Frame *)

(** C9: [forward], [inverse], [sample], [log_prob], [posterior] and
    [save] leave every attribute of the receiver as it was; [train]
    leaves every attribute but [_params] as it was, and [_params] too
    when it raises. *)
Theorem flow_fields_frame {OptState} (optimizer : Optimizer OptState)
    inputs grid column mode nsamples seed file epochs batch_size tseed
    verbose st :
  self (snd (forward inputs st)) = self st
  /\ self (snd (inverse inputs st)) = self st
  /\ self (snd (sample nsamples seed st)) = self st
  /\ self (snd (log_prob inputs st)) = self st
  /\ self (snd (posterior inputs grid column mode st)) = self st
  /\ self (snd (save file st)) = self st
  /\ (let r := train inputs epochs batch_size optimizer tseed verbose st in
      (exists p, self (snd r) = set_params p (self st))
      /\ match fst r with
         | inl _ => self (snd r) = self st
         | inr _ => True
         end).
Proof.
  repeat split.
  - rewrite log_prob_run. reflexivity.
  - rewrite posterior_run. reflexivity.
  - apply (train_frame optimizer inputs epochs batch_size tseed verbose st).
  - apply (train_frame optimizer inputs epochs batch_size tseed verbose st).
Qed.

(** ** Construction *)

Lemma seal_attrs_of f : seal (attrs_of f) = Some f.
Proof. destruct f; reflexivity. Qed.

Lemma init_file_run path info0 (st : InitState) :
  __init__ PyNone None (Some path) info0 st =
  match files st !! path with
  | Some d => (inr tt, {| attrs := attrs_of (restored d); files := files st |})
  | None => (inl (FileNotFoundError path), st)
  end.
Proof.
  unfold __init__, dill_load, mbind, M_bind, gets, assign, modify, raise,
    mret, M_ret, restored. cbn.
  destruct (files st !! path) as [d|]; [|reflexivity].
  destruct (sd_bijector d (PRNGKey 0) (sd_input_dim d)) as [[p fw] iv].
  reflexivity.
Qed.

Lemma init_fresh_run d bijector info0 (st : InitState) :
  0 < d ->
  __init__ (PyInt d) bijector None info0 st =
  (inr tt, {| attrs := attrs_of (fresh d bijector info0);
              files := files st |}).
Proof.
  intros Hd. unfold __init__, fresh. cbn [is_None andb orb negb].
  rewrite bool_decide_eq_false_2 by congruence. cbn [andb].
  apply Z.ltb_lt in Hd. rewrite Hd.
  unfold mbind, M_bind, assign, modify, mret, M_ret.
  destruct (match bijector with
            | Some b => b
            | None => RollingSplineCoupling d
            end (PRNGKey 0) d) as [[p fw] iv].
  reflexivity.
Qed.

Lemma init_value_error input_dim bijector file info0 (st : InitState) :
  (exists msg,
      fst (__init__ input_dim bijector file info0 st) = inl (ValueError msg))
  <-> (input_dim = PyNone /\ file = None)
      \/ (file <> None /\ (input_dim <> PyNone \/ bijector <> None))
      \/ (file = None /\ input_dim <> PyNone
          /\ positive_int input_dim = false).
Proof.
  destruct file as [path|].
  - destruct input_dim as [|d|x|s], bijector as [b|].
    2:{ rewrite init_file_run. split.
        - intros [msg H]. destruct (files st !! path); discriminate.
        - intros [[_ [=]]|[(_ & [?|?])|([=] & _)]]; congruence. }
    all: split; [intros _; right; left; split; [congruence|];
                 first [left; congruence | right; congruence] |].
    all: intros _; unfold __init__; cbn [is_None andb orb negb];
      repeat rewrite bool_decide_eq_true_2 by congruence;
      repeat rewrite bool_decide_eq_false_2 by congruence;
      cbn [andb orb negb]; unfold raise; cbn; eauto.
  - destruct input_dim as [|d|x|s].
    + split; [intros _; left; auto|]. intros _.
      unfold __init__. cbn. eauto.
    + destruct (Z.ltb_spec 0 d) as [Hd|Hd].
      * rewrite init_fresh_run by exact Hd. split.
        -- intros [msg [=]].
        -- cbn [positive_int].
           intros [[[=] _]|[[? _]|(_ & _ & H)]]; [congruence|].
           apply Z.ltb_ge in H. lia.
      * split.
        -- intros _. right; right. repeat split; [congruence|].
           cbn. apply Z.ltb_ge. lia.
        -- intros _. unfold __init__. cbn [is_None andb orb negb].
           rewrite bool_decide_eq_false_2 by congruence. cbn [andb].
           replace (0 <? d) with false by (symmetry; apply Z.ltb_ge; lia).
           unfold mbind, M_bind, raise. cbn. eauto.
    + split; [intros _; right; right; repeat split; congruence|].
      intros _. unfold __init__. cbn [is_None andb orb negb].
      rewrite bool_decide_eq_false_2 by congruence.
      unfold mbind, M_bind, raise. cbn. eauto.
    + split; [intros _; right; right; repeat split; congruence|].
      intros _. unfold __init__. cbn [is_None andb orb negb].
      rewrite bool_decide_eq_false_2 by congruence.
      unfold mbind, M_bind, raise. cbn. eauto.
Qed.

Lemma init_error_frame input_dim bijector file info0 (st : InitState) e :
  fst (__init__ input_dim bijector file info0 st) = inl e ->
  snd (__init__ input_dim bijector file info0 st) = st.
Proof.
  destruct file as [path|].
  - destruct input_dim as [|d|x|s], bijector as [b|].
    2:{ rewrite init_file_run. destruct (files st !! path);
          [discriminate|reflexivity]. }
    all: intros _; unfold __init__; cbn [is_None andb orb negb];
      repeat rewrite bool_decide_eq_true_2 by congruence;
      repeat rewrite bool_decide_eq_false_2 by congruence;
      reflexivity.
  - destruct input_dim as [|d|x|s].
    2:{ destruct (Z.ltb_spec 0 d) as [Hd|Hd].
        - rewrite init_fresh_run by exact Hd. discriminate.
        - intros _. unfold __init__. cbn [is_None andb orb negb].
          rewrite bool_decide_eq_false_2 by congruence. cbn [andb].
          replace (0 <? d) with false by (symmetry; apply Z.ltb_ge; lia).
          reflexivity. }
    all: intros _; unfold __init__; cbn [is_None andb orb negb];
      repeat rewrite bool_decide_eq_true_2 by congruence;
      repeat rewrite bool_decide_eq_false_2 by congruence;
      reflexivity.
Qed.

(** C5: construction raises its [ValueError] exactly when neither
    [input_dim] nor [file] is given, or [file] is given together with
    [input_dim] or with [bijector], or [input_dim] is given without
    [file] and is not a positive integer; when [__init__] raises, no
    attribute has been assigned and the files are as they were. *)
Theorem construction_validation input_dim bijector file info0
    (st : InitState) :
  let invalid :=
    (input_dim = PyNone /\ file = None)
    \/ (file <> None /\ (input_dim <> PyNone \/ bijector <> None))
    \/ (file = None /\ input_dim <> PyNone
        /\ positive_int input_dim = false) in
  ((exists msg,
       fst (__init__ input_dim bijector file info0 st) = inl (ValueError msg))
   <-> invalid)
  /\ ((exists msg,
          Flow_new input_dim bijector file info0 (files st)
          = inl (ValueError msg))
      <-> invalid)
  /\ (forall e,
        fst (__init__ input_dim bijector file info0 st) = inl e ->
        snd (__init__ input_dim bijector file info0 st) = st).
Proof.
  intros invalid. split; [apply init_value_error|].
  split; [|apply init_error_frame].
  unfold invalid.
  rewrite <- (init_value_error input_dim bijector file info0
                {| attrs := no_attrs; files := files st |}).
  unfold Flow_new.
  destruct (__init__ input_dim bijector file info0 _) as [[e|[]] st'];
    cbn [fst].
  - split; intros [msg [= ->]]; eauto.
  - split; intros [msg H]; [|discriminate].
    destruct (seal (attrs st')); discriminate.
Qed.

(** ** Persistence *)

Lemma Flow_new_constructed input_dim bijector file info0 fs f :
  Flow_new input_dim bijector file info0 fs = inr f -> constructed f.
Proof.
  unfold Flow_new.
  destruct file as [path|].
  - destruct input_dim as [|d|x|s], bijector as [b|]; try discriminate.
    rewrite init_file_run. cbn [files].
    destruct (fs !! path) as [d|]; [|discriminate].
    cbn [attrs]. rewrite seal_attrs_of. intros [= <-].
    repeat split.
  - destruct input_dim as [|d|x|s]; try discriminate.
    destruct (Z.ltb_spec 0 d) as [Hd|Hd].
    + rewrite init_fresh_run by exact Hd. cbn [attrs].
      rewrite seal_attrs_of. intros [= <-]. repeat split.
    + unfold __init__. cbn [is_None andb orb negb].
      rewrite bool_decide_eq_false_2 by congruence. cbn [andb].
      replace (0 <? d) with false by (symmetry; apply Z.ltb_ge; lia).
      discriminate.
Qed.

Lemma set_params_constructed p f : constructed f -> constructed (set_params p f).
Proof. unfold constructed. destruct f; cbn. auto. Qed.

(** [train] keeps the invariant. *)
Lemma train_constructed {OptState} (optimizer : Optimizer OptState)
    inputs epochs batch_size seed verbose st :
  constructed (self st) ->
  constructed
    (self (snd (train inputs epochs batch_size optimizer seed verbose st))).
Proof.
  intros Hc.
  destruct (train_frame optimizer inputs epochs batch_size seed verbose st)
    as [[p ->] _].
  apply set_params_constructed, Hc.
Qed.

(** A construction returns an object, or raises one of its two
    exceptions. *)
Lemma Flow_new_cases input_dim bijector file info0 fs :
  (exists f, Flow_new input_dim bijector file info0 fs = inr f)
  \/ (exists msg, Flow_new input_dim bijector file info0 fs
                  = inl (ValueError msg))
  \/ (exists path, Flow_new input_dim bijector file info0 fs
                   = inl (FileNotFoundError path)).
Proof.
  destruct (Z.ltb_spec 0 match input_dim with PyInt d => d | _ => 0 end)
    as [Hd|Hd].
  - destruct input_dim as [|d|x|s]; try lia.
    destruct file as [path|].
    + right; left. unfold Flow_new, __init__.
      cbn [is_None andb orb negb].
      repeat rewrite bool_decide_eq_true_2 by congruence.
      cbn. eauto.
    + left. unfold Flow_new. rewrite init_fresh_run by exact Hd.
      cbn [attrs]. rewrite seal_attrs_of. eauto.
  - destruct file as [path|].
    + destruct input_dim as [|d|x|s], bijector as [b|].
      2:{ unfold Flow_new. rewrite init_file_run. cbn [files].
          destruct (fs !! path) as [d|].
          - left. cbn [attrs]. rewrite seal_attrs_of. eauto.
          - right; right. eauto. }
      all: right; left; unfold Flow_new, __init__;
        cbn [is_None andb orb negb];
        repeat rewrite bool_decide_eq_true_2 by congruence;
        repeat rewrite bool_decide_eq_false_2 by congruence;
        cbn; eauto.
    + right; left. unfold Flow_new, __init__.
      destruct input_dim as [|d|x|s]; cbn [is_None andb orb negb];
        repeat rewrite bool_decide_eq_true_2 by congruence;
        repeat rewrite bool_decide_eq_false_2 by congruence;
        cbn [andb]; try (cbn; eauto; fail).
      replace (0 <? d) with false by (symmetry; apply Z.ltb_ge; lia).
      cbn. eauto.
Qed.

Lemma save_run file st :
  save file st =
  (inr tt,
   {| self := self st;
      disk := <[file := {| sd_input_dim := input_dim (self st);
                           sd_info := info (self st);
                           sd_bijector := _bijector (self st);
                           sd_params := _params (self st) |}]> (disk st);
      stdout := stdout st |}).
Proof. reflexivity. Qed.

(** C8: after [f.save(file)], [Flow(file=file)] returns an object with
    the [input_dim], the [info] and the parameters of [f], and whose
    [log_prob] agrees with that of [f] on every batch; [f] is any
    object that satisfies the constructor's invariant. *)
Theorem save_restore_fidelity file info0 st :
  constructed (self st) ->
  let f := self st in
  let st' := snd (save file st) in
  fst (save file st) = inr tt
  /\ exists g,
       Flow_new PyNone None (Some file) info0 (disk st') = inr g
       /\ input_dim g = input_dim f
       /\ info g = info f
       /\ _params g = _params f
       /\ forall batch,
            fst (log_prob batch {| self := g; disk := disk st';
                                   stdout := stdout st' |})
            = fst (log_prob batch st').
Proof.
  intros (Hfw & Hiv & Hpr) f st'. split; [reflexivity|].
  unfold st'. rewrite save_run. cbn [snd disk stdout].
  unfold Flow_new. rewrite init_file_run. cbn [files].
  rewrite lookup_insert_eq. cbn [attrs]. rewrite seal_attrs_of.
  eexists. split; [reflexivity|]. unfold restored. cbn.
  repeat split. intros batch. rewrite !log_prob_run. cbn [fst self].
  unfold log_density. cbn. rewrite <- Hiv, <- Hpr. reflexivity.
Qed.

(** ** The expanded batch of [posterior] *)

Lemma zip_with_replicate_l {A B C} (h : A -> B -> C) a (l : list B) :
  zip_with h (replicate (length l) a) l = map (h a) l.
Proof. induction l; cbn; congruence. Qed.

Lemma zip_with_replicate_r {A B C} (h : A -> B -> C) (l : list A) b :
  zip_with h l (replicate (length l) b) = map (fun x => h x b) l.
Proof. induction l; cbn; congruence. Qed.

Lemma np_tile_S (v : vector) n : np_tile v (S n) = v ++ np_tile v n.
Proof. reflexivity. Qed.

(** Repeating the rows and tiling the grid pair every row with every
    grid value, rows outermost. *)
Lemma zip_repeat_tile {A C} (h : A -> float -> C) (rs : list A) grid :
  zip_with h (flat_map (fun r => replicate (length grid) r) rs)
             (np_tile grid (length rs))
  = flat_map (fun r => map (h r) grid) rs.
Proof.
  induction rs as [|r rs IH]; [reflexivity|].
  cbn [flat_map length]. rewrite np_tile_S, zip_with_app.
  - rewrite zip_with_replicate_l, IH. reflexivity.
  - apply length_replicate.
Qed.

Lemma zip_flat_map_repeat {A B C D} (h : C -> B -> D) (p : A -> float -> C)
    (q : A -> B) (rs : list A) (grid : vector) :
  zip_with h (flat_map (fun r => map (p r) grid) rs)
             (flat_map (fun r => replicate (length grid) r) (map q rs))
  = flat_map (fun r => map (fun g => h (p r g) (q r)) grid) rs.
Proof.
  induction rs as [|r rs IH]; [reflexivity|].
  cbn [flat_map map]. rewrite zip_with_app.
  - rewrite IH. f_equal.
    rewrite <- (length_map (p r) grid), zip_with_replicate_r, map_map.
    reflexivity.
  - rewrite length_map, length_replicate. reflexivity.
Qed.



Lemma expand_insert_rows inputs grid c :
  rows (expand "insert" inputs grid c)
  = flat_map (fun r => map (variant "insert" c r) grid) (rows inputs).
Proof.
  unfold expand, variant, np_hstack, hcat, np_repeat, cols_to, cols_from,
    as_column, nrows. cbn [String.eqb Ascii.eqb Bool.eqb fold_left rows].
  rewrite (map_fmap (fun x => [x])), zip_with_fmap_r.
  rewrite <- (length_map (slice_to c) (rows inputs)) at 1.
  rewrite zip_repeat_tile, flat_map_concat_map, map_map,
    <- flat_map_concat_map.
  rewrite zip_flat_map_repeat. apply flat_map_ext. intros r.
  apply map_ext. intros g. rewrite <- app_assoc. reflexivity.
Qed.

Lemma expand_replace_rows inputs grid c :
  rows (expand "replace" inputs grid c)
  = flat_map (fun r => map (variant "replace" c r) grid) (rows inputs).
Proof.
  unfold expand, variant, index_update_col, np_repeat, nrows.
  cbn [String.eqb Ascii.eqb Bool.eqb rows].
  apply (zip_repeat_tile (fun r x => set_item c x r)).
Qed.

Lemma expand_nrows mode inputs grid c :
  mode = "insert" \/ mode = "replace" ->
  nrows (expand mode inputs grid c) = (nrows inputs * length grid)%nat.
Proof.
  intros Hm. unfold nrows at 1.
  assert (H : rows (expand mode inputs grid c)
              = flat_map (fun r => map (variant mode c r) grid) (rows inputs))
    by (destruct Hm as [-> | ->];
        [apply expand_insert_rows | apply expand_replace_rows]).
  rewrite H. unfold nrows. clear.
  induction (rows inputs) as [|r rs IH]; [reflexivity|].
  cbn [flat_map length]. rewrite length_app, length_map, IH. lia.
Qed.

Lemma validate_ok f n column mode c :
  validate f n column mode = inr c ->
  column = PyInt c
  /\ ((resolve_mode f n mode = "insert" /\ Z.of_nat n = input_dim f - 1)
      \/ (resolve_mode f n mode = "replace" /\ Z.of_nat n = input_dim f)).
Proof.
  unfold validate, resolve_mode. cbn [existsb].
  case_strings; cbn [negb orb andb]; try discriminate;
    case_ints; cbn [negb orb andb]; try discriminate;
    destruct column; try discriminate; intros [= ->].
  all: refine (conj eq_refl _); first [left; split; [reflexivity|lia]
                                      | right; split; [reflexivity|lia]].
Qed.

Lemma log_density_length f x :
  shape_contract f -> length (log_density f x) = nrows x.
Proof.
  intros H. destruct (H x) as [Hd Hp].
  unfold log_density, nan_to_num, vadd.
  rewrite length_map, length_zip_with, Hd, Hp. lia.
Qed.



Lemma reshape_ok v n k :
  length v = (n * k)%nat -> reshape v n k = inr (Matrix (chunks n k v) k).
Proof.
  intros H. unfold reshape. rewrite H, Nat.eqb_refl. reflexivity.
Qed.


(** A call that passes validation, on a flow whose collaborators keep
    the shape contract, returns the rows of [log_prob] over the batch
    turned into densities. *)
Lemma posterior_ok inputs grid column mode c st :
  shape_contract (self st) ->
  validate (self st) (ncols inputs) column mode = inr c ->
  let batch :=
    expand (resolve_mode (self st) (ncols inputs) mode) inputs grid c in
  let v := log_density (self st) batch in
  length v = (nrows inputs * length grid)%nat
  /\ posterior inputs grid column mode st
     = (inr (nan_to_num_2d
               (normalize
                  (exp_2d (Matrix (chunks (nrows inputs) (length grid) v)
                                  (length grid)))
                  grid) zero), st).
Proof.
  intros Hc Hv batch v.
  destruct (validate_ok _ _ _ _ _ Hv) as [_ Hmode].
  assert (Hlen : length v = (nrows inputs * length grid)%nat).
  { unfold v. rewrite log_density_length by exact Hc.
    apply expand_nrows. tauto. }
  split; [exact Hlen|].
  rewrite posterior_run, Hv. cbn zeta. fold batch v.
  rewrite (reshape_ok _ _ _ Hlen). reflexivity.
Qed.


(** C6, as amended: the array [posterior] returns is the normalized
    density array with every NaN entry replaced by 0, every positive
    infinity by the largest finite value, every negative infinity by
    the most negative finite value, and every finite entry kept; every
    returned entry is finite. *)
Theorem posterior_nan_to_num inputs grid column mode st res st' :
  posterior inputs grid column mode st = (inr res, st') ->
  exists c lp,
    validate (self st) (ncols inputs) column mode = inr c
    /\ reshape (log_density (self st)
                  (expand (resolve_mode (self st) (ncols inputs) mode)
                          inputs grid c))
               (nrows inputs) (length grid) = inr lp
    /\ let pdfs := normalize (exp_2d lp) grid in
       res = nan_to_num_2d pdfs zero
       /\ (forall i j row x,
             rows pdfs !! i = Some row -> row !! j = Some x ->
             exists row',
               rows res !! i = Some row'
               /\ row' !! j = Some (if isnan x then zero
                                    else if isposinf x then finfo_max
                                    else if isneginf x then finfo_min
                                    else x))
       /\ Forall (Forall (fun y => isfinite y = true)) (rows res).
Proof.
  rewrite posterior_run.
  destruct (validate (self st) (ncols inputs) column mode) as [e|c];
    [discriminate|]. cbn zeta.
  destruct (reshape _ _ _) as [e|lp] eqn:Hlp; [discriminate|].
  intros H. inversion H; subst. clear H. exists c, lp.
  split; [reflexivity|]. split; [exact Hlp|]. repeat split.
  - intros i j row x Hrow Hx. unfold nan_to_num_2d, nan_to_num. cbn [rows].
    exists (map (nan_to_num1 zero) row). split.
    + rewrite map_fmap, list_lookup_fmap, Hrow. cbn. rewrite map_fmap.
      reflexivity.
    + rewrite map_fmap, list_lookup_fmap, Hx. cbn.
      rewrite nan_to_num1_zero. reflexivity.
  - unfold nan_to_num_2d, nan_to_num. cbn [rows].
    rewrite map_fmap. apply Forall_fmap, Forall_true. intros row. cbn.
    rewrite map_fmap. apply Forall_fmap, Forall_true. intros x. cbn.
    apply nan_to_num1_finite. reflexivity.
Qed.

(** ** A column index past the last column *)






End Properties.

(** * Further properties of the methods *)

Section Coverage.

Context `{E : Engine}.

Implicit Types (st : State) (f : Flow) (inputs : matrix) (grid : vector).

(** ** The training loop, with what it prints *)

Section TrainRuns.

Context {OptState : Type}.
Variable optimizer : Optimizer OptState.
Variables (inputs : matrix) (epochs batch_size seed : Z) (verbose : bool).

Lemma epoch_body_exact f (k : nat) (epoch : Z) (ls : list float) st :
  batch_size <> 0 ->
  let '(os, i, rng) := state_after f optimizer inputs batch_size seed k in
  let '(os', i', rng') :=
    state_after f optimizer inputs batch_size seed (S k) in
  let l := loss f (get_params optimizer os') inputs in
  epoch_body f optimizer inputs epochs batch_size verbose epoch
    {| v_opt_state := os; v_itercount := i; v_rng := rng; v_losses := ls |} st
  = (inr {| v_opt_state := os'; v_itercount := i'; v_rng := rng';
            v_losses := ls ++ [l] |},
     with_stdout
       (stdout st ++ if verbose && (epoch mod print_every epochs =? 0)
                     then [l] else [])
       st).
Proof.
  intros Hb. cbn [state_after].
  destruct (state_after f optimizer inputs batch_size seed k)
    as [[os i] rng].
  unfold epoch_body. cbn [v_rng v_opt_state v_itercount v_losses].
  destruct (random_split rng) as [permute_rng rng'].
  unfold batch_starts.
  destruct (py_range_nonzero 0
    (Z.of_nat (nrows (random_permutation permute_rng inputs))) batch_size Hb)
    as [idxs ->].
  unfold mbind, M_bind, lift.
  destruct (run_batches f optimizer _ batch_size idxs (os, i)) as [os' i'].
  unfold when, print, modify, mret, M_ret, with_stdout.
  destruct (verbose && _); cbn; [reflexivity|].
  rewrite app_nil_r. destruct st; reflexivity.
Qed.

Lemma epochs_exact f (n : nat) : forall (k : nat) (ls : list float) st,
  batch_size <> 0 ->
  let '(os, i, rng) := state_after f optimizer inputs batch_size seed k in
  let '(os', i', rng') :=
    state_after f optimizer inputs batch_size seed (k + n) in
  for_each (map (fun j => Z.of_nat j) (seq k n))
    (epoch_body f optimizer inputs epochs batch_size verbose)
    {| v_opt_state := os; v_itercount := i; v_rng := rng; v_losses := ls |} st
  = (inr {| v_opt_state := os'; v_itercount := i'; v_rng := rng';
            v_losses :=
              ls ++ map (fun j =>
                           loss f (params_after f optimizer inputs
                                     batch_size seed (S j)) inputs)
                        (seq k n) |},
     with_stdout
       (stdout st ++ printed_losses f optimizer inputs epochs batch_size seed
                       verbose k n)
       st).
Proof.
  induction n as [|n IH]; intros k ls st Hb.
  - rewrite Nat.add_0_r.
    destruct (state_after f optimizer inputs batch_size seed k)
      as [[os i] rng].
    unfold printed_losses, with_stdout. cbn. rewrite !app_nil_r.
    destruct st; reflexivity.
  - pose proof (epoch_body_exact f k (Z.of_nat k) ls st Hb) as Hstep.
    specialize (IH (S k)).
    replace (k + S n)%nat with (S k + n)%nat by lia.
    unfold printed_losses, params_after in *.
    destruct (state_after f optimizer inputs batch_size seed k)
      as [[os i] rng].
    destruct (state_after f optimizer inputs batch_size seed (S k))
      as [[os1 i1] rng1] eqn:H1.
    cbn zeta in Hstep.
    specialize (IH (ls ++ [loss f (get_params optimizer os1) inputs])
                   (with_stdout
                      (stdout st ++
                       (if verbose && (Z.of_nat k mod print_every epochs =? 0)
                        then [loss f (get_params optimizer os1) inputs]
                        else [])) st) Hb).
    destruct (state_after f optimizer inputs batch_size seed (S k + n))
      as [[os' i'] rng'].
    cbn [seq map for_each]. unfold mbind, M_bind at 1.
    rewrite Hstep, IH. cbn [List.filter]. rewrite H1. cbn [fst].
    unfold with_stdout. cbn [self disk stdout].
    rewrite <- !app_assoc.
    destruct (verbose && (Z.of_nat k mod print_every epochs =? 0));
      cbn [map app]; rewrite ?H1; reflexivity.
Qed.

(** What a call with [epochs >= 0] and a non-zero [batch_size]
    returns, prints and leaves behind. *)
Lemma train_exact st :
  0 <= epochs -> batch_size <> 0 ->
  let f := self st in
  let p := params_after f optimizer inputs batch_size seed in
  let l0 := loss f (_params f) inputs in
  train inputs epochs batch_size optimizer seed verbose st
  = (inr (l0 :: map (fun j => loss f (p (S j)) inputs)
                    (seq 0 (Z.to_nat epochs))),
     {| self := set_params (p (Z.to_nat epochs)) f;
        disk := disk st;
        stdout := stdout st ++ (if verbose then [l0] else [])
                  ++ printed_losses f optimizer inputs epochs batch_size seed
                       verbose 0 (Z.to_nat epochs) |}).
Proof.
  intros He Hb f p l0.
  pose proof (epochs_exact f (Z.to_nat epochs) 0) as Hrun.
  cbn [state_after Nat.add] in Hrun.
  set (st1 := with_stdout (stdout st ++ if verbose then [l0] else []) st).
  assert (Hprint :
     (if verbose then print l0 else mret tt) st = (inr tt, st1)).
  { unfold st1, with_stdout. destruct verbose;
      unfold print, modify, mret, M_ret; [reflexivity|].
    rewrite app_nil_r. destruct st; reflexivity. }
  specialize (Hrun [l0] st1 Hb).
  unfold p, params_after.
  destruct (state_after f optimizer inputs batch_size seed (Z.to_nat epochs))
    as [[os i] rng] eqn:Hfinal.
  unfold train, mbind, M_bind, gets, when, lift. fold f l0.
  rewrite Hprint, (py_range_count epochs He), Hrun.
  unfold modify, mret, M_ret, with_stdout, st1, with_stdout. cbn.
  rewrite <- app_assoc. reflexivity.
Qed.

Lemma py_range_none n : n <= 0 -> py_range 0 n 1 = inr [].
Proof.
  intros H. unfold py_range. cbn [Z.eqb Z.ltb Z.compare].
  replace ((n - 0 + 1 - 1) / 1) with n by (rewrite Z.div_1_r; lia).
  replace (Z.to_nat n) with 0%nat by lia. reflexivity.
Qed.

(** With no epoch to run, the call returns the baseline loss alone. *)
Lemma train_no_epoch_run st :
  epochs <= 0 ->
  let f := self st in
  let l0 := loss f (_params f) inputs in
  train inputs epochs batch_size optimizer seed verbose st
  = (inr [l0],
     {| self := set_params
                  (get_params optimizer (opt_init optimizer (_params f))) f;
        disk := disk st;
        stdout := stdout st ++ if verbose then [l0] else [] |}).
Proof.
  intros He f l0. unfold train, mbind, M_bind, gets, when, lift. fold f l0.
  rewrite (py_range_none epochs He).
  destruct verbose; unfold print, modify, mret, M_ret; cbn;
    [reflexivity|]. rewrite app_nil_r. reflexivity.
Qed.

(** With [batch_size = 0] the first epoch raises. *)
Lemma train_zero_batch_run st :
  1 <= epochs -> batch_size = 0 ->
  let f := self st in
  let l0 := loss f (_params f) inputs in
  train inputs epochs batch_size optimizer seed verbose st
  = (inl (ValueError "range() arg 3 must not be zero"),
     with_stdout (stdout st ++ if verbose then [l0] else []) st).
Proof.
  intros He -> f l0. unfold train, mbind, M_bind, gets, when, lift.
  fold f l0. rewrite (py_range_count epochs) by lia.
  destruct (Z.to_nat epochs) as [|m] eqn:Hm; [lia|].
  set (st1 := with_stdout (stdout st ++ if verbose then [l0] else []) st).
  assert (Hprint :
     (if verbose then print l0 else mret tt) st = (inr tt, st1)).
  { unfold st1, with_stdout. destruct verbose;
      unfold print, modify, mret, M_ret; [reflexivity|].
    rewrite app_nil_r. destruct st; reflexivity. }
  rewrite Hprint. cbn [seq map for_each]. unfold mbind, M_bind at 1.
  unfold epoch_body. cbn [v_rng].
  destruct (random_split (PRNGKey seed)) as [permute_rng rng].
  unfold mbind, M_bind, lift, py_range. cbn [Z.eqb]. reflexivity.
Qed.

(** The baseline: whenever the call returns, its first loss is the
    loss of the parameters held before it, on the full inputs. *)
Lemma train_first_loss st ls :
  fst (train inputs epochs batch_size optimizer seed verbose st) = inr ls ->
  ls !! 0%nat = Some (loss (self st) (_params (self st)) inputs).
Proof.
  destruct (Z_le_gt_dec epochs 0) as [He|He].
  - rewrite (train_no_epoch_run st He). cbn. intros [= <-]. reflexivity.
  - destruct (Z.eq_dec batch_size 0) as [Hb|Hb].
    + rewrite (train_zero_batch_run st) by (lia || exact Hb). discriminate.
    + rewrite (train_exact st) by (lia || exact Hb).
      cbn. intros [= <-]. reflexivity.
Qed.

End TrainRuns.

(** ** Edge cases and composition of [train] *)

Lemma loss_set_params p q f inputs :
  loss (set_params q f) p inputs = loss f p inputs.
Proof. reflexivity. Qed.

Lemma filter_all {A} (g : A -> bool) (l : list A) :
  (forall x, g x = true) -> List.filter g l = l.
Proof.
  intros H. induction l as [|x l IH]; cbn; [reflexivity|].
  rewrite H, IH. reflexivity.
Qed.

(** X1: with [epochs <= 0] no epoch runs: [train] returns the baseline
    loss alone, and the parameters become those the optimizer extracts
    from its initial state. *)
Theorem train_without_epochs {OptState} (optimizer : Optimizer OptState)
    inputs epochs batch_size seed verbose st :
  epochs <= 0 ->
  let f := self st in
  exists out,
    train inputs epochs batch_size optimizer seed verbose st
    = (inr [loss f (_params f) inputs],
       {| self := set_params
                    (get_params optimizer (opt_init optimizer (_params f))) f;
          disk := disk st; stdout := out |}).
Proof.
  intros He f. eexists.
  apply (train_no_epoch_run optimizer inputs epochs batch_size seed verbose
           st He).
Qed.

(** X2: with [batch_size = 0] and at least one epoch, [train] raises
    the [ValueError] of [range], and the attributes and the files are
    as before the call. *)
Theorem train_zero_batch_size {OptState} (optimizer : Optimizer OptState)
    inputs epochs seed verbose st :
  1 <= epochs ->
  let r := train inputs epochs 0 optimizer seed verbose st in
  fst r = inl (ValueError "range() arg 3 must not be zero")
  /\ self (snd r) = self st
  /\ disk (snd r) = disk st.
Proof.
  intros He r. unfold r.
  rewrite (train_zero_batch_run optimizer inputs epochs 0 seed verbose st He
             eq_refl).
  repeat split.
Qed.

(** X3: [verbose] changes nothing but what is printed: the result, the
    attributes and the files are the same with and without it; without
    it nothing is printed, with it the baseline loss is printed first. *)
Theorem train_verbose_only_prints {OptState} (optimizer : Optimizer OptState)
    inputs epochs batch_size seed st :
  let loud := train inputs epochs batch_size optimizer seed true st in
  let quiet := train inputs epochs batch_size optimizer seed false st in
  fst loud = fst quiet
  /\ self (snd loud) = self (snd quiet)
  /\ disk (snd loud) = disk (snd quiet)
  /\ stdout (snd quiet) = stdout st
  /\ exists more,
       stdout (snd loud)
       = stdout st ++ loss (self st) (_params (self st)) inputs :: more.
Proof.
  intros loud quiet. unfold loud, quiet.
  destruct (Z_le_gt_dec epochs 0) as [He|He].
  - rewrite !(train_no_epoch_run optimizer inputs epochs batch_size seed _
                st He).
    cbn. rewrite app_nil_r. repeat split. exists []. reflexivity.
  - destruct (Z.eq_dec batch_size 0) as [Hb|Hb].
    + rewrite !(train_zero_batch_run optimizer inputs epochs batch_size seed _
                  st ltac:(lia) Hb).
      cbn. rewrite app_nil_r. repeat split. exists []. reflexivity.
    + rewrite !(train_exact optimizer inputs epochs batch_size seed _ st
                  ltac:(lia) Hb).
      cbn [fst snd self disk stdout]. unfold printed_losses.
      rewrite (filter_ext _ (fun _ => false)) by reflexivity.
      assert (Hnone : forall l : list nat, List.filter (fun _ => false) l = [])
        by (induction l; auto).
      rewrite Hnone. cbn. rewrite app_nil_r. repeat split.
      eexists. reflexivity.
Qed.

(** X4: with [verbose] and fewer than 20 epochs every loss is printed:
    what the call appends to the output is the sequence it returns. *)
Theorem train_verbose_prints_every_loss {OptState}
    (optimizer : Optimizer OptState) inputs epochs batch_size seed st :
  0 <= epochs < 20 -> batch_size <> 0 ->
  exists losses st',
    train inputs epochs batch_size optimizer seed true st = (inr losses, st')
    /\ stdout st' = stdout st ++ losses.
Proof.
  intros He Hb.
  rewrite (train_exact optimizer inputs epochs batch_size seed true st
             ltac:(lia) Hb).
  eexists. eexists. split; [reflexivity|]. cbn [stdout].
  unfold printed_losses, print_every.
  rewrite Z.div_small by lia. cbn [Z.max Z.compare].
  rewrite filter_all; [reflexivity|].
  intros j. rewrite Z.mod_1_r. reflexivity.
Qed.

(** X5: a second call takes up where the first ended: after a call
    with at least one epoch, the baseline loss of the next call on the
    same inputs is the last loss the first call returned. *)
Theorem train_resumes_from_last_loss {S1 S2} (opt1 : Optimizer S1)
    (opt2 : Optimizer S2) inputs e1 b1 seed1 v1 e2 b2 seed2 v2 st ls2 :
  1 <= e1 -> b1 <> 0 ->
  fst (train inputs e2 b2 opt2 seed2 v2
         (snd (train inputs e1 b1 opt1 seed1 v1 st))) = inr ls2 ->
  exists ls1,
    fst (train inputs e1 b1 opt1 seed1 v1 st) = inr ls1
    /\ last ls1 = ls2 !! 0%nat.
Proof.
  intros He Hb H2. apply train_first_loss in H2. rewrite H2. clear H2.
  rewrite (train_exact opt1 inputs e1 b1 seed1 v1 st ltac:(lia) Hb).
  eexists. split; [reflexivity|]. cbn [snd self _params set_params].
  rewrite loss_set_params.
  destruct (Z.to_nat e1) as [|m] eqn:Hm; [lia|].
  rewrite seq_S, map_app. cbn [map Nat.add].
  rewrite app_comm_cons, last_snoc. reflexivity.
Qed.

Lemma run_batches_count {OptState} f (optimizer : Optimizer OptState) X
    batch_size (idxs : list Z) : forall os i,
  snd (run_batches f optimizer X batch_size idxs (os, i))
  = i + Z.of_nat (length idxs).
Proof.
  unfold run_batches.
  induction idxs as [|b idxs IH]; intros os i; cbn [fold_left length];
    [cbn; lia|].
  rewrite IH. lia.
Qed.

(** X6: the step counter runs on across epochs: an epoch over [n]
    permuted rows advances it by the number of its batches, the
    quotient of [n + batch_size - 1] by [batch_size]. *)
Theorem epoch_advances_step_counter {OptState} f
    (optimizer : Optimizer OptState) inputs epochs batch_size verbose epoch
    (v v' : Vars) st st' :
  0 < batch_size ->
  epoch_body f optimizer inputs epochs batch_size verbose epoch v st
  = (inr v', st') ->
  let X := random_permutation (fst (random_split (v_rng v))) inputs in
  v_itercount v'
  = v_itercount v + (Z.of_nat (nrows X) + batch_size - 1) / batch_size.
Proof.
  intros Hb. unfold epoch_body.
  destruct (random_split (v_rng v)) as [permute_rng rng]. cbn [fst].
  unfold mbind, M_bind, lift, py_range.
  destruct (Z.eqb_spec batch_size 0) as [|_]; [lia|].
  destruct (Z.ltb_spec 0 batch_size) as [_|]; [|lia].
  set (X := random_permutation permute_rng inputs).
  set (idxs := map _ (seq 0 _)).
  pose proof (run_batches_count f optimizer X batch_size idxs
                (v_opt_state v) (v_itercount v)) as Hcount.
  destruct (run_batches f optimizer X batch_size idxs _) as [os i].
  cbn [snd] in Hcount.
  unfold when, print, modify, mret, M_ret.
  destruct (verbose && _); intros [= <- _]; cbn [v_itercount];
    rewrite Hcount; unfold idxs; rewrite length_map, length_seq;
    rewrite Z2Nat.id; try (f_equal; f_equal; lia);
    apply Z.div_pos; lia.
Qed.


(** ** The batches of an epoch *)

Lemma slice_chunk {A} (l : list A) (k B : nat) :
  (0 < B)%nat -> (k * B < length l)%nat ->
  slice (Z.of_nat (k * B)) (Z.of_nat (k * B) + Z.of_nat B) l
  = take B (drop (k * B) l).
Proof.
  intros HB Hk. unfold slice, slice_bound.
  destruct (Z.ltb_spec (Z.of_nat (k * B)) 0) as [|_]; [lia|].
  destruct (Z.ltb_spec (Z.of_nat (k * B) + Z.of_nat B) 0) as [|_]; [lia|].
  replace (Z.to_nat (Z.min (Z.of_nat (k * B)) (Z.of_nat (length l))))
    with (k * B)%nat by lia.
  destruct (Nat.le_gt_cases (k * B + B) (length l)) as [Hle|Hgt].
  - f_equal. lia.
  - rewrite !take_ge; [reflexivity| |]; rewrite length_drop; lia.
Qed.

Lemma concat_chunks {A} (l : list A) (B c : nat) :
  concat (map (fun k => take B (drop (k * B) l)) (seq 0 c)) = take (c * B) l.
Proof.
  induction c as [|c IH]; [reflexivity|].
  rewrite seq_S, map_app, concat_app, IH. cbn [map concat Nat.add].
  rewrite app_nil_r, take_take_drop. f_equal. lia.
Qed.

(** X7: for a positive [batch_size], the batches [X[b : b + batch_size]]
    over [b] in [range(0, len(X), batch_size)] are the rows of [X] cut
    in order: put end to end they give [X] back, and each holds at least
    one row and at most [batch_size]. *)
Theorem batches_partition_rows (X : matrix) (batch_size : Z) :
  0 < batch_size ->
  exists idxs,
    py_range 0 (Z.of_nat (nrows X)) batch_size = inr idxs
    /\ concat (map (fun b => rows (rows_slice b (b + batch_size) X)) idxs)
       = rows X
    /\ Forall (fun b =>
                 (0 < length (rows (rows_slice b (b + batch_size) X))
                  <= Z.to_nat batch_size)%nat) idxs.
Proof.
  intros Hb. unfold py_range, nrows.
  destruct (Z.eqb_spec batch_size 0) as [|_]; [lia|].
  destruct (Z.ltb_spec 0 batch_size) as [_|]; [|lia].
  eexists. split; [reflexivity|].
  set (l := rows X). set (B := Z.to_nat batch_size).
  set (q := (Z.of_nat (length l) - 0 + batch_size - 1) / batch_size).
  assert (HB : (0 < B)%nat) by (unfold B; lia).
  assert (Hq : batch_size * q <= Z.of_nat (length l) + batch_size - 1
               < batch_size * (q + 1)).
  { unfold q. replace (Z.of_nat (length l) - 0 + batch_size - 1)
      with (Z.of_nat (length l) + batch_size - 1) by lia.
    split; [apply Z.mul_div_le; lia|].
    replace (q + 1) with (Z.succ q) by lia. unfold q.
    replace (Z.of_nat (length l) - 0 + batch_size - 1)
      with (Z.of_nat (length l) + batch_size - 1) by lia.
    apply Z.mul_succ_div_gt. lia. }
  assert (Hq0 : 0 <= q) by (unfold q; apply Z.div_pos; lia).
  assert (Hchunk : forall k, (k < Z.to_nat q)%nat ->
    rows (rows_slice (0 + Z.of_nat k * batch_size)
            (0 + Z.of_nat k * batch_size + batch_size) X)
    = take B (drop (k * B) l)).
  { intros k Hk. unfold rows_slice. cbn [rows]. fold l.
    replace (0 + Z.of_nat k * batch_size) with (Z.of_nat (k * B))
      by (unfold B; nia).
    replace batch_size with (Z.of_nat B) at 1 by (unfold B; lia).
    apply slice_chunk; [exact HB|]. unfold B. nia. }
  split.
  - rewrite map_map.
    rewrite (map_ext_in _ (fun k => take B (drop (k * B) l))).
    + rewrite concat_chunks. apply take_ge. unfold B. nia.
    + intros k Hk. apply in_seq in Hk. apply Hchunk. lia.
  - apply Forall_forall. intros b Hb'. apply list_elem_of_In in Hb'.
    apply in_map_iff in Hb' as (k & <- & Hk). apply in_seq in Hk.
    rewrite Hchunk by lia. rewrite length_take, length_drop.
    fold B. unfold B. nia.
Qed.

(** ** Which column [posterior] fills *)

Lemma matrix_eq (a b : matrix) :
  rows a = rows b -> ncols a = ncols b -> a = b.
Proof. destruct a, b. cbn. intros -> ->. reflexivity. Qed.

Lemma expand_insert_ncols inputs grid c :
  ncols (expand "insert" inputs grid c)
  = (slice_bound (ncols inputs) c + 1
     + (ncols inputs - slice_bound (ncols inputs) c))%nat.
Proof. reflexivity. Qed.

Lemma expand_replace_ncols inputs grid c :
  ncols (expand "replace" inputs grid c) = ncols inputs.
Proof. reflexivity. Qed.

Lemma flat_map_variant_ext (P : list float -> Prop) (h h' : list float -> float -> list float)
    (grid : vector) (rs : list (list float)) :
  Forall P rs -> (forall r g, P r -> h r g = h' r g) ->
  flat_map (fun r => map (h r) grid) rs
  = flat_map (fun r => map (h' r) grid) rs.
Proof.
  intros Hrs Hh. induction Hrs as [|r rs Hr _ IH]; [reflexivity|].
  cbn [flat_map]. rewrite IH. f_equal. apply map_ext. intros g.
  apply Hh, Hr.
Qed.

(** Two calls that pass validation and build the same batch from as
    many rows give the same outcome. *)
Lemma posterior_congr inputs inputs' grid column column' mode mode' c c' st :
  validate (self st) (ncols inputs) column mode = inr c ->
  validate (self st) (ncols inputs') column' mode' = inr c' ->
  nrows inputs = nrows inputs' ->
  expand (resolve_mode (self st) (ncols inputs) mode) inputs grid c
  = expand (resolve_mode (self st) (ncols inputs') mode') inputs' grid c' ->
  posterior inputs grid column mode st
  = posterior inputs' grid column' mode' st.
Proof.
  intros Hv Hv' Hn He. rewrite !posterior_run, Hv, Hv'. cbn zeta.
  rewrite He, Hn. reflexivity.
Qed.

Lemma validate_insert f n c :
  Z.of_nat n = input_dim f - 1 -> validate f n (PyInt c) "insert" = inr c.
Proof.
  intros Hn. unfold validate.
  cbn [existsb String.eqb Ascii.eqb Bool.eqb negb orb andb].
  rewrite Hn, Z.eqb_refl. cbn [negb orb andb].
  rewrite Bool.orb_true_r. reflexivity.
Qed.

Lemma validate_replace f n c :
  Z.of_nat n = input_dim f -> validate f n (PyInt c) "replace" = inr c.
Proof.
  intros Hn. unfold validate.
  cbn [existsb String.eqb Ascii.eqb Bool.eqb negb orb andb].
  rewrite Hn, Z.eqb_refl. reflexivity.
Qed.

Lemma variant_insert_delete (k : nat) r g :
  (k < length r)%nat ->
  variant "insert" (Z.of_nat k) (delete k r) g
  = variant "replace" (Z.of_nat k) r g.
Proof.
  intros Hk. unfold variant, slice_to, slice_from, set_item, axis_index,
    slice_bound. cbn [String.eqb Ascii.eqb Bool.eqb].
  destruct (Z.ltb_spec (Z.of_nat k) 0) as [|_]; [lia|].
  destruct (Z.leb_spec 0 (Z.of_nat k)) as [_|]; [|lia].
  destruct (Z.ltb_spec (Z.of_nat k) (Z.of_nat (length r))) as [_|]; [|lia].
  cbn [andb]. rewrite Nat2Z.id, length_delete by (apply lookup_lt_is_Some; lia).
  replace (Z.to_nat (Z.min (Z.of_nat k) (Z.of_nat (length r - 1)))) with k
    by lia.
  rewrite insert_take_drop by exact Hk.
  rewrite delete_take_drop.
  rewrite take_app_length' by (rewrite length_take; lia).
  rewrite drop_app_length' by (rewrite length_take; lia).
  reflexivity.
Qed.

(** X8: replacing a column is inserting at the place of the column
    taken out: on full rows, [mode = "replace"] gives what
    [mode = "insert"] gives on the rows without column [k]. *)
Theorem posterior_replace_is_insert_after_delete inputs grid (k : nat) st :
  rectangular inputs ->
  Z.of_nat (ncols inputs) = input_dim (self st) ->
  (k < ncols inputs)%nat ->
  posterior (np_delete_col inputs k) grid (PyInt (Z.of_nat k)) "insert" st
  = posterior inputs grid (PyInt (Z.of_nat k)) "replace" st.
Proof.
  intros Hrect Hn Hk.
  apply (posterior_congr _ _ _ _ _ _ _ (Z.of_nat k) (Z.of_nat k)).
  - apply validate_insert. cbn [np_delete_col ncols]. lia.
  - apply validate_replace, Hn.
  - unfold nrows. cbn [np_delete_col rows]. apply length_map.
  - change (resolve_mode (self st) (ncols (np_delete_col inputs k)) "insert")
      with "insert".
    change (resolve_mode (self st) (ncols inputs) "replace") with "replace".
    apply matrix_eq.
    + rewrite expand_insert_rows, expand_replace_rows.
      cbn [np_delete_col rows].
      rewrite flat_map_concat_map, map_map, <- flat_map_concat_map.
      apply (flat_map_variant_ext (fun r => length r = ncols inputs));
        [exact Hrect|].
      intros r g Hr. apply variant_insert_delete. lia.
    + rewrite expand_insert_ncols, expand_replace_ncols.
      cbn [np_delete_col ncols]. unfold slice_bound.
      destruct (Z.ltb_spec (Z.of_nat k) 0) as [|_]; lia.
Qed.

Lemma set_item_length c x r : length (set_item c x r) = length r.
Proof.
  unfold set_item. destruct (axis_index _ _); [apply length_insert|];
    reflexivity.
Qed.

Lemma set_item_twice c x y r : set_item c y (set_item c x r) = set_item c y r.
Proof.
  unfold set_item at 1. rewrite set_item_length. unfold set_item.
  destruct (axis_index (length r) c); [apply list_insert_insert_eq|].
  reflexivity.
Qed.

(** X9: in [mode = "replace"] the values the batch holds in [column]
    do not matter: writing any values [w], one per row, into that
    column beforehand leaves the outcome as it is. *)
Theorem posterior_replace_ignores_column inputs grid c (w : vector) st :
  length w = nrows inputs ->
  posterior (index_update_col inputs c w) grid (PyInt c) "replace" st
  = posterior inputs grid (PyInt c) "replace" st.
Proof.
  intros Hw. rewrite !posterior_run. cbn [index_update_col ncols].
  assert (Hrows : nrows (index_update_col inputs c w) = nrows inputs).
  { unfold nrows, index_update_col. cbn [rows].
    rewrite length_zip_with. unfold nrows in Hw. lia. }
  destruct (validate (self st) (ncols inputs) (PyInt c) "replace")
    as [e|c'] eqn:Hv; [reflexivity|].
  destruct (validate_ok _ _ _ _ _ Hv) as [[= <-] _].
  cbn zeta. rewrite Hrows. clear Hrows Hv.
  replace (expand (resolve_mode (self st) (ncols inputs) "replace")
             (index_update_col inputs c w) grid c)
    with (expand (resolve_mode (self st) (ncols inputs) "replace")
            inputs grid c); [reflexivity|].
  change (resolve_mode (self st) (ncols inputs) "replace") with "replace".
  apply matrix_eq; [|reflexivity].
  rewrite !expand_replace_rows. unfold nrows in Hw.
  unfold index_update_col. cbn [rows]. revert w Hw.
  induction (rows inputs) as [|r rs IH]; intros [|x w] Hw; try discriminate;
    [reflexivity|].
  cbn [zip_with flat_map]. rewrite <- IH by (cbn in Hw; lia).
  f_equal. apply map_ext. intros g. unfold variant.
  cbn [String.eqb Ascii.eqb Bool.eqb]. symmetry. apply set_item_twice.
Qed.

Lemma cols_to_same inputs c c' :
  rectangular inputs ->
  slice_bound (ncols inputs) c = slice_bound (ncols inputs) c' ->
  cols_to c inputs = cols_to c' inputs
  /\ cols_from c inputs = cols_from c' inputs.
Proof.
  intros Hrect Hb. unfold cols_to, cols_from. rewrite Hb.
  split; f_equal; unfold rectangular in Hrect;
    induction Hrect as [|r rs Hr _ IH]; cbn [map]; try reflexivity;
    rewrite IH; f_equal; unfold slice_to, slice_from; rewrite Hr, Hb;
    reflexivity.
Qed.

Lemma axis_index_negative len c :
  - Z.of_nat len <= c < 0 ->
  axis_index len c = axis_index len (c + Z.of_nat len).
Proof.
  intros Hc. unfold axis_index.
  destruct (Z.ltb_spec c 0) as [_|]; [|lia].
  destruct (Z.ltb_spec (c + Z.of_nat len) 0) as [|_]; [lia|]. reflexivity.
Qed.

(** X10: a negative [column] counts from the end.  With
    [mode = "insert"] it names the place [column + (input_dim - 1)],
    or the first place when that is below zero; with
    [mode = "replace"] a [column] from [-input_dim] on names the column
    [column + input_dim]. *)
Theorem posterior_negative_column inputs grid c st :
  rectangular inputs ->
  c < 0 ->
  let d := input_dim (self st) in
  (Z.of_nat (ncols inputs) = d - 1 ->
   posterior inputs grid (PyInt c) "insert" st
   = posterior inputs grid (PyInt (Z.max 0 (c + (d - 1)))) "insert" st)
  /\ (Z.of_nat (ncols inputs) = d -> - d <= c ->
      posterior inputs grid (PyInt c) "replace" st
      = posterior inputs grid (PyInt (c + d)) "replace" st).
Proof.
  intros Hrect Hc d. split.
  - intros Hn.
    apply (posterior_congr _ _ _ _ _ _ _ c (Z.max 0 (c + (d - 1))));
      try (apply validate_insert; exact Hn); [reflexivity|].
    change (resolve_mode (self st) (ncols inputs) "insert") with "insert".
    assert (Hb : slice_bound (ncols inputs) c
                 = slice_bound (ncols inputs) (Z.max 0 (c + (d - 1)))).
    { unfold slice_bound.
      destruct (Z.ltb_spec c 0) as [_|]; [|lia].
      destruct (Z.ltb_spec (Z.max 0 (c + (d - 1))) 0) as [|_]; lia. }
    destruct (cols_to_same inputs c _ Hrect Hb) as [Hto Hfrom].
    unfold expand. cbn [String.eqb Ascii.eqb Bool.eqb].
    rewrite Hto, Hfrom. reflexivity.
  - intros Hn Hd.
    apply (posterior_congr _ _ _ _ _ _ _ c (c + d));
      try (apply validate_replace; exact Hn); [reflexivity|].
    change (resolve_mode (self st) (ncols inputs) "replace") with "replace".
    apply matrix_eq; [|reflexivity]. rewrite !expand_replace_rows.
    apply (flat_map_variant_ext (fun r => length r = ncols inputs));
      [exact Hrect|].
    intros r g Hr. unfold variant, set_item.
    cbn [String.eqb Ascii.eqb Bool.eqb].
    rewrite (axis_index_negative (length r) c) by lia.
    replace (c + Z.of_nat (length r)) with (c + d) by lia. reflexivity.
Qed.

(** ** The order of the checks of [posterior] *)

(** X11: an unknown [mode] is reported whatever the other arguments
    are; with [mode = "replace"] and a column count other than
    [input_dim] the message is the one that names [mode=`insert`]; and
    a [column] that is not an integer is reported only when the mode is
    known and the column count fits it. *)
Theorem posterior_check_order inputs grid column mode st :
  let f := self st in
  let n := Z.of_nat (ncols inputs) in
  (mode <> "auto" -> mode <> "insert" -> mode <> "replace" ->
   fst (posterior inputs grid column mode st)
   = inl (ValueError (mode_error mode)))
  /\ (mode = "replace" -> n <> input_dim f ->
      fst (posterior inputs grid column mode st)
      = inl (ValueError
          "When using mode=`insert`, inputs.shape[1] must be equal to input_dim"))
  /\ (fst (posterior inputs grid column mode st)
      = inl (ValueError "`column` must be an integer") ->
      isinstance_int column = false
      /\ ((mode = "auto" /\ (n = input_dim f \/ n = input_dim f - 1))
          \/ (mode = "insert" /\ n = input_dim f - 1)
          \/ (mode = "replace" /\ n = input_dim f))).
Proof.
  intros f n. rewrite posterior_run. fold f. unfold n.
  split; [|split].
  - intros H1 H2 H3. unfold validate. cbn [existsb].
    destruct (String.eqb_spec mode "auto"); [congruence|].
    destruct (String.eqb_spec mode "insert"); [congruence|].
    destruct (String.eqb_spec mode "replace"); [congruence|].
    reflexivity.
  - intros -> Hn. unfold validate.
    cbn [existsb String.eqb Ascii.eqb Bool.eqb negb orb andb].
    destruct (Z.eqb_spec (Z.of_nat (ncols inputs)) (input_dim f));
      [congruence|]. reflexivity.
  - destruct (validate f (ncols inputs) column mode) as [e|c] eqn:Hv.
    + cbn [fst]. intros [= ->]. revert Hv. unfold validate. cbn [existsb].
      case_strings; cbn [negb orb andb]; try discriminate;
        case_ints; cbn [negb orb andb]; try discriminate;
        destruct column; try discriminate; intros _;
        (split; [reflexivity|]); try lia; auto.
    + cbn zeta. destruct (reshape _ _ _) as [e|lp] eqn:Hr; [|discriminate].
      apply reshape_error in Hr as [m ->]. discriminate.
Qed.

(** ** What the methods leave alone *)

(** X12: [forward], [inverse], [sample], [log_prob] and [posterior]
    write no file and print nothing: they leave the whole state as it
    was.  [save] prints nothing and writes the one file it is given,
    every other path keeping its content; [train] writes no file. *)
Theorem methods_touch_nothing_else {OptState} (optimizer : Optimizer OptState)
    inputs grid column mode nsamples seed file epochs batch_size tseed
    verbose st :
  snd (forward inputs st) = st
  /\ snd (inverse inputs st) = st
  /\ snd (sample nsamples seed st) = st
  /\ snd (log_prob inputs st) = st
  /\ snd (posterior inputs grid column mode st) = st
  /\ (let st' := snd (save file st) in
      stdout st' = stdout st
      /\ is_Some (disk st' !! file)
      /\ forall other, other <> file -> disk st' !! other = disk st !! other)
  /\ disk (snd (train inputs epochs batch_size optimizer tseed verbose st))
     = disk st.
Proof.
  repeat split.
  - rewrite log_prob_run. reflexivity.
  - rewrite posterior_run. reflexivity.
  - rewrite save_run. cbn [snd disk]. rewrite lookup_insert_eq. eauto.
  - intros other Hne. rewrite save_run. cbn [snd disk].
    apply lookup_insert_ne. congruence.
  - apply (train_frame optimizer inputs epochs batch_size tseed verbose st).
Qed.

(** ** What the constructor builds *)

(** X13: a construction from a dimension that succeeds has built, for
    a positive integer [d], an object of that dimension with the given
    [info], the given bijector or else the default one for [d], the
    initial parameters and the apply functions that bijector makes for
    the fixed key, and the normal prior of dimension [d]; the files
    play no part. *)
Theorem fresh_construction dim bijector info0 fs f :
  Flow_new dim bijector None info0 fs = inr f ->
  exists d,
    dim = PyInt d /\ 0 < d
    /\ input_dim f = d
    /\ info f = info0
    /\ _bijector f = match bijector with
                     | Some b => b
                     | None => RollingSplineCoupling d
                     end
    /\ (_params f, _forward f, _inverse f) = _bijector f (PRNGKey 0) d
    /\ prior f = Normal d.
Proof.
  unfold Flow_new. destruct dim as [|d|x|s]; try discriminate.
  destruct (Z.ltb_spec 0 d) as [Hd|Hd].
  - rewrite init_fresh_run by exact Hd. cbn [attrs].
    rewrite seal_attrs_of. intros [= <-]. exists d. unfold fresh. cbn.
    repeat split; try assumption.
    destruct (match bijector with
              | Some b => b
              | None => RollingSplineCoupling d
              end (PRNGKey 0) d) as [[p fw] iv]. reflexivity.
  - unfold __init__. cbn [is_None andb orb negb].
    rewrite bool_decide_eq_false_2 by congruence. cbn [andb].
    replace (0 <? d) with false by (symmetry; apply Z.ltb_ge; lia).
    discriminate.
Qed.

(** X14: [Flow(file=path)] raises [FileNotFoundError] when no file is
    at [path], with no attribute assigned; otherwise it returns an
    object with the [input_dim], [info], bijector and parameters of the
    dictionary in the file, the apply functions the bijector makes for
    the fixed key, and the normal prior.  The [info] passed to the
    constructor is not used, and the stored [input_dim] is not
    checked. *)
Theorem construction_from_file path info0 fs :
  (fs !! path = None ->
   Flow_new PyNone None (Some path) info0 fs = inl (FileNotFoundError path)
   /\ snd (__init__ PyNone None (Some path) info0
             {| attrs := no_attrs; files := fs |})
      = {| attrs := no_attrs; files := fs |})
  /\ (forall d, fs !! path = Some d ->
      exists g,
        Flow_new PyNone None (Some path) info0 fs = inr g
        /\ input_dim g = sd_input_dim d
        /\ info g = sd_info d
        /\ _bijector g = sd_bijector d
        /\ _params g = sd_params d
        /\ (_forward g, _inverse g)
           = (snd (fst (sd_bijector d (PRNGKey 0) (sd_input_dim d))),
              snd (sd_bijector d (PRNGKey 0) (sd_input_dim d)))
        /\ prior g = Normal (sd_input_dim d)).
Proof.
  unfold Flow_new. rewrite init_file_run. cbn [files]. split.
  - intros ->. split; reflexivity.
  - intros d ->. cbn [attrs]. rewrite seal_attrs_of.
    eexists. split; [reflexivity|]. repeat split.
Qed.

(** ** The invariant, and files around training *)

Lemma restore_saved f path info0 fs :
  constructed f ->
  fs !! path = Some {| sd_input_dim := input_dim f; sd_info := info f;
                       sd_bijector := _bijector f; sd_params := _params f |} ->
  Flow_new PyNone None (Some path) info0 fs = inr f.
Proof.
  intros (Hfw & Hiv & Hpr) Hfs. unfold Flow_new.
  rewrite init_file_run. cbn [files]. rewrite Hfs. cbn [attrs].
  rewrite seal_attrs_of. f_equal. unfold restored.
  destruct f; cbn in *. subst. reflexivity.
Qed.

(** X15: every object the constructor returns has its apply functions
    made by its own bijector for the fixed key and its dimension, and
    the normal prior of its dimension; [train] keeps this so, whatever
    its arguments and whether it returns or raises. *)
Theorem constructed_invariant {OptState} (optimizer : Optimizer OptState)
    dim bijector file info0 fs inputs epochs batch_size seed verbose :
  (forall f, Flow_new dim bijector file info0 fs = inr f -> constructed f)
  /\ (forall st,
        constructed (self st) ->
        constructed
          (self (snd (train inputs epochs batch_size optimizer seed verbose
                        st)))).
Proof.
  split.
  - intros f. apply Flow_new_constructed.
  - intros st. apply train_constructed.
Qed.

(** X16: a file is a snapshot.  A flow saved and then trained is
    restored from the file as it was when saved, the training having
    written nothing; trained and then saved, it is restored as
    trained. *)
Theorem restore_around_train {OptState} (optimizer : Optimizer OptState)
    file info0 inputs epochs batch_size seed verbose st :
  constructed (self st) ->
  let trained st := train inputs epochs batch_size optimizer seed verbose st in
  Flow_new PyNone None (Some file) info0
           (disk (snd (trained (snd (save file st)))))
  = inr (self st)
  /\ Flow_new PyNone None (Some file) info0
              (disk (snd (save file (snd (trained st)))))
     = inr (self (snd (trained st))).
Proof.
  intros Hc trained. split.
  - apply restore_saved; [exact Hc|]. unfold trained.
    destruct (train_frame optimizer inputs epochs batch_size seed verbose
                (snd (save file st))) as (_ & _ & ->).
    rewrite save_run. cbn [snd disk]. apply lookup_insert_eq.
  - apply restore_saved; [apply train_constructed, Hc|].
    rewrite save_run. cbn [snd disk]. apply lookup_insert_eq.
Qed.

(** ** The example flow *)

(** X17: [example_flow()] reads [example-flow.dill] in the directory
    of its module: it raises [FileNotFoundError] when the file is not
    there, and returns the flow that was saved there when one was. *)
Theorem example_flow_loads this_dir info_none :
  let flow_path := os_path_join this_dir "example-flow.dill" in
  (forall fs, fs !! flow_path = None ->
     example_flow this_dir info_none fs = inl (FileNotFoundError flow_path))
  /\ (forall st, constructed (self st) ->
        example_flow this_dir info_none (disk (snd (save flow_path st)))
        = inr (self st)).
Proof.
  intros flow_path. unfold example_flow. fold flow_path. split.
  - intros fs Hfs. unfold Flow_new. rewrite init_file_run. cbn [files].
    rewrite Hfs. reflexivity.
  - intros st Hc. apply restore_saved; [exact Hc|].
    rewrite save_run. cbn [snd disk]. apply lookup_insert_eq.
Qed.

End Coverage.

(** * Closed examples on the reference engine *)

Import Ref.

Lemma ref_flows_constructed :
  Flow_new (PyInt 1) (Some shift_bijector) None "demo" ∅ = inr flow1
  /\ Flow_new (PyInt 2) (Some shift_bijector) None "demo" ∅ = inr flow2.
Proof. split; reflexivity. Qed.

Lemma ref_shape_contract d info0 :
  shape_contract (fresh d (Some shift_bijector) info0).
Proof.
  intros x. cbn. split.
  - apply length_replicate.
  - unfold normal_log_prob. cbn. rewrite !length_map. reflexivity.
Qed.


(** A NaN entry on the reference engine: the sum at the point NaN is
    NaN, and [log_prob] returns the most negative finite value for
    it. *)
Lemma log_prob_nan_entry_example :
  let x := Matrix [[NAN]] 1 in
  vadd (prior_log_prob (prior flow1) (fst (_inverse flow1 (_params flow1) x)))
       (snd (_inverse flow1 (_params flow1) x)) = [NAN]
  /\ fst (log_prob x (world flow1)) = inr [finfo_min].
Proof. cbv zeta. split; vm_compute; reflexivity. Qed.




(** C3, counterexample: with [epochs = -1] the call returns one loss,
    not [epochs + 1 = 0]; with [batch_size = 0] it raises. *)
Lemma train_domain_counterexample :
  (exists losses,
      fst (train batch3 (-1) 2 sgd 0 false (world flow1)) = inr losses
      /\ Z.of_nat (length losses) = 1
      /\ Z.of_nat (length losses) <> -1 + 1)
  /\ fst (train batch3 3 0 sgd 0 false (world flow1))
     = inl (ValueError "range() arg 3 must not be zero").
Proof.
  split; [|vm_compute; reflexivity].
  eexists. split; [vm_compute; reflexivity|]. cbn. split; lia.
Qed.

(** C3, an instance: three epochs in batches of two over three
    points. *)
Lemma train_losses_witness :
  0 <= 3 /\ 2 <> 0
  /\ exists losses out,
       train batch3 3 2 sgd 0 true (world flow1)
       = (inr losses,
          {| self := set_params
                       (params_after flow1 sgd batch3 2 0 3) flow1;
             disk := ∅; stdout := out |})
       /\ Z.of_nat (length losses) = 4.
Proof.
  split; [lia|]. split; [lia|].
  destruct (train_losses sgd batch3 3 2 0 true (world flow1)
              ltac:(lia) ltac:(lia))
    as (losses & out & Hrun & _ & Hlen & _).
  exists losses, out. split; [exact Hrun | exact Hlen].
Defined.

(** C4, an instance: an unknown mode is refused and the state kept. *)
Lemma posterior_validation_witness :
  posterior (Matrix [[half]] 1) [zero; one] (PyInt 0) "nearest"
            (world flow2)
  = (inl (ValueError (mode_error "nearest")), world flow2).
Proof.
  apply (proj2 (posterior_validation (Matrix [[half]] 1) [zero; one]
                  (PyInt 0) "nearest" (world flow2))).
  reflexivity.
Defined.

(** C5, an instance: a dimension of zero is refused with nothing
    assigned. *)
Lemma construction_validation_witness :
  let st := {| attrs := no_attrs; files := ∅ |} in
  snd (__init__ (PyInt 0) None None "demo" st) = st.
Proof.
  cbv zeta.
  apply (proj2 (proj2 (construction_validation (E := engine)
                         (PyInt 0) None None "demo"
                         {| attrs := no_attrs; files := ∅ |}))
               (ValueError "input_dim must be a positive integer")).
  reflexivity.
Defined.

(** C6, counterexample: over a grid of one point the trapezoidal
    integral is 0, the normalized density is positive infinity, and
    the entry returned is the largest finite value, not 0. *)
Lemma posterior_posinf_counterexample :
  (exists c lp,
      validate flow1 1 (PyInt 0) "auto" = inr c
      /\ reshape (log_density flow1
                    (expand (resolve_mode flow1 1 "auto") (Matrix [[zero]] 1)
                            [half] c)) 1 1 = inr lp
      /\ normalize (exp_2d lp) [half] = Matrix [[PINF]] 1)
  /\ fst (posterior (Matrix [[zero]] 1) [half] (PyInt 0) "auto" (world flow1))
     = inr (Matrix [[finfo_max]] 1)
  /\ finfo_max <> zero.
Proof.
  split; [|split].
  - eexists. eexists. split; [reflexivity|].
    split; [vm_compute; reflexivity | vm_compute; reflexivity].
  - vm_compute. reflexivity.
  - intros H. vm_compute in H. discriminate H.
Qed.

(** C6, an instance: every entry of a posterior over three grid points
    is finite. *)
Lemma posterior_nan_to_num_witness :
  exists res,
    posterior (Matrix [[half]] 1) [zero; half; one] (PyInt 0) "auto"
              (world flow2) = (inr res, world flow2)
    /\ Forall (Forall (fun y => isfinite y = true)) (rows res).
Proof.
  destruct (posterior_ok (Matrix [[half]] 1) [zero; half; one]
              (PyInt 0) "auto" 0 (world flow2)
              (ref_shape_contract 2 "demo") eq_refl)
    as [_ Hpost].
  eexists. split; [exact Hpost|].
  destruct (posterior_nan_to_num _ _ _ _ _ _ _ Hpost)
    as (c & lp & _ & _ & _ & _ & Hfin).
  exact Hfin.
Defined.

(** C7, an instance of each half. *)
Lemma posterior_auto_mode_witness :
  (Z.of_nat (ncols (Matrix [[half; one]] 2)) = input_dim flow2
   /\ posterior (Matrix [[half; one]] 2) [zero; one] (PyInt 1) "auto"
                (world flow2)
      = posterior (Matrix [[half; one]] 2) [zero; one] (PyInt 1) "replace"
                  (world flow2))
  /\ (Z.of_nat (ncols (Matrix [[half]] 1)) = input_dim flow2 - 1
      /\ posterior (Matrix [[half]] 1) [zero; one] (PyInt 1) "auto"
                   (world flow2)
         = posterior (Matrix [[half]] 1) [zero; one] (PyInt 1) "insert"
                     (world flow2)).
Proof.
  split; (split; [reflexivity|]).
  - apply (proj1 (posterior_auto_mode (Matrix [[half; one]] 2) [zero; one]
                    (PyInt 1) (world flow2))). reflexivity.
  - apply (proj2 (posterior_auto_mode (Matrix [[half]] 1) [zero; one]
                    (PyInt 1) (world flow2))). reflexivity.
Defined.

(** C8, an instance: [flow1] saved and restored. *)
Lemma save_restore_fidelity_witness :
  constructed flow1
  /\ exists g,
       Flow_new PyNone None (Some "flow.dill") "other"
                (disk (snd (save "flow.dill" (world flow1)))) = inr g
       /\ input_dim g = 1
       /\ info g = "demo".
Proof.
  assert (Hc : constructed flow1) by (repeat split).
  split; [exact Hc|].
  destruct (save_restore_fidelity (E := engine) "flow.dill" "other"
              (world flow1) Hc)
    as (_ & g & Hnew & Hd & Hi & _).
  exists g. split; [exact Hnew|]. split; [exact Hd | exact Hi].
Defined.


(** ** Instances of the further properties *)

(** X1, an instance: a call with [epochs = -2]. *)
Lemma train_without_epochs_witness :
  -2 <= 0
  /\ exists out,
       train batch3 (-2) 2 sgd 0 true (world flow1)
       = (inr [loss flow1 (_params flow1) batch3],
          {| self := set_params
                       (get_params sgd (opt_init sgd (_params flow1))) flow1;
             disk := ∅; stdout := out |}).
Proof.
  split; [lia|].
  apply (train_without_epochs sgd batch3 (-2) 2 0 true (world flow1)).
  lia.
Defined.

(** X2, an instance: three epochs with [batch_size = 0]. *)
Lemma train_zero_batch_size_witness :
  1 <= 3
  /\ fst (train batch3 3 0 sgd 0 false (world flow1))
     = inl (ValueError "range() arg 3 must not be zero").
Proof.
  split; [lia|].
  apply (train_zero_batch_size sgd batch3 3 0 false (world flow1)). lia.
Defined.

(** X4, an instance: three epochs, all printed. *)
Lemma train_verbose_prints_every_loss_witness :
  0 <= 3 < 20 /\ 2 <> 0
  /\ exists losses st',
       train batch3 3 2 sgd 0 true (world flow1) = (inr losses, st')
       /\ stdout st' = [] ++ losses.
Proof.
  split; [lia|]. split; [lia|].
  apply (train_verbose_prints_every_loss sgd batch3 3 2 0 (world flow1));
    lia.
Defined.

(** X5, an instance: two epochs, then one more. *)
Lemma train_resumes_from_last_loss_witness :
  1 <= 2 /\ 2 <> 0
  /\ exists ls1 ls2,
       fst (train batch3 2 2 sgd 0 false (world flow1)) = inr ls1
       /\ fst (train batch3 1 3 sgd 7 false
                 (snd (train batch3 2 2 sgd 0 false (world flow1))))
          = inr ls2
       /\ last ls1 = ls2 !! 0%nat.
Proof.
  split; [lia|]. split; [lia|].
  assert (H2 : exists ls2,
    fst (train batch3 1 3 sgd 7 false
           (snd (train batch3 2 2 sgd 0 false (world flow1)))) = inr ls2)
    by (eexists; vm_compute; reflexivity).
  destruct H2 as [ls2 H2].
  destruct (train_resumes_from_last_loss sgd sgd batch3 2 2 0 false 1 3 7
              false (world flow1) ls2 ltac:(lia) ltac:(lia) H2)
    as (ls1 & H1 & Hlast).
  exists ls1, ls2. repeat split; assumption.
Defined.

(** X6, an instance: three rows in batches of two are two steps. *)
Lemma epoch_advances_step_counter_witness :
  0 < 2
  /\ exists v v' st',
       v_itercount v = 0
       /\ epoch_body flow1 sgd batch3 3 2 false 0 v (world flow1)
          = (inr v', st')
       /\ v_itercount v' = 0 + 2.
Proof.
  split; [lia|].
  pose proof (epoch_body_exact sgd batch3 3 2 0 false flow1 0%nat 0 []
                (world flow1) ltac:(lia)) as H.
  remember (state_after flow1 sgd batch3 2 0 1) as s1 eqn:Hs1.
  destruct s1 as [[os' i'] rng']. cbn [state_after] in H.
  do 3 eexists. split; [|split; [exact H|]]; [reflexivity|].
  rewrite (epoch_advances_step_counter flow1 sgd batch3 3 2 false 0 _ _
             (world flow1) _ ltac:(lia) H).
  vm_compute. reflexivity.
Defined.

(** X7, an instance: three rows in batches of two. *)
Lemma batches_partition_rows_witness :
  0 < 2
  /\ exists idxs,
       py_range 0 (Z.of_nat (nrows batch3)) 2 = inr idxs
       /\ concat (map (fun b => rows (rows_slice b (b + 2) batch3)) idxs)
          = rows batch3.
Proof.
  split; [lia|].
  destruct (batches_partition_rows batch3 2 ltac:(lia))
    as (idxs & Hr & Hc & _).
  exists idxs. split; assumption.
Defined.

(** X8, an instance: the first of two columns. *)
Lemma posterior_replace_is_insert_after_delete_witness :
  rectangular (Matrix [[half; one]] 2)
  /\ Z.of_nat (ncols (Matrix [[half; one]] 2)) = input_dim flow2
  /\ (0 < ncols (Matrix [[half; one]] 2))%nat
  /\ posterior (np_delete_col (Matrix [[half; one]] 2) 0) [zero; one]
               (PyInt 0) "insert" (world flow2)
     = posterior (Matrix [[half; one]] 2) [zero; one] (PyInt 0) "replace"
                 (world flow2).
Proof.
  assert (Hr : rectangular (Matrix [[half; one]] 2)) by (repeat constructor).
  split; [exact Hr|]. split; [reflexivity|]. split; [cbn; lia|].
  apply (posterior_replace_is_insert_after_delete (Matrix [[half; one]] 2)
           [zero; one] 0 (world flow2) Hr eq_refl).
  cbn. lia.
Defined.

(** X9, an instance: another value in the replaced column. *)
Lemma posterior_replace_ignores_column_witness :
  length [of_Z 3] = nrows (Matrix [[half; one]] 2)
  /\ posterior (index_update_col (Matrix [[half; one]] 2) 0 [of_Z 3])
               [zero; one] (PyInt 0) "replace" (world flow2)
     = posterior (Matrix [[half; one]] 2) [zero; one] (PyInt 0) "replace"
                 (world flow2).
Proof.
  split; [reflexivity|].
  apply (posterior_replace_ignores_column (Matrix [[half; one]] 2)
           [zero; one] 0 [of_Z 3] (world flow2)).
  reflexivity.
Defined.

(** X10, an instance of each half, with [column = -1]. *)
Lemma posterior_negative_column_witness :
  (rectangular (Matrix [[half]] 1) /\ -1 < 0
   /\ Z.of_nat (ncols (Matrix [[half]] 1)) = input_dim flow2 - 1
   /\ posterior (Matrix [[half]] 1) [zero; one] (PyInt (-1)) "insert"
                (world flow2)
      = posterior (Matrix [[half]] 1) [zero; one] (PyInt 0) "insert"
                  (world flow2))
  /\ (rectangular (Matrix [[half; one]] 2)
      /\ Z.of_nat (ncols (Matrix [[half; one]] 2)) = input_dim flow2
      /\ - input_dim flow2 <= -1
      /\ posterior (Matrix [[half; one]] 2) [zero; one] (PyInt (-1)) "replace"
                   (world flow2)
         = posterior (Matrix [[half; one]] 2) [zero; one] (PyInt 1) "replace"
                     (world flow2)).
Proof.
  assert (H1 : rectangular (Matrix [[half]] 1)) by (repeat constructor).
  assert (H2 : rectangular (Matrix [[half; one]] 2)) by (repeat constructor).
  split.
  - split; [exact H1|]. split; [lia|]. split; [reflexivity|].
    apply (proj1 (posterior_negative_column (Matrix [[half]] 1) [zero; one]
                    (-1) (world flow2) H1 ltac:(lia))).
    reflexivity.
  - split; [exact H2|]. split; [reflexivity|]. split; [cbn; lia|].
    apply (proj2 (posterior_negative_column (Matrix [[half; one]] 2)
                    [zero; one] (-1) (world flow2) H2 ltac:(lia)));
      [reflexivity | cbn; lia].
Defined.

(** X11, an instance: a column that is not an integer, the rest in
    order. *)
Lemma posterior_check_order_witness :
  fst (posterior (Matrix [[half]] 1) [zero; one] (PyFloat one) "auto"
                 (world flow2))
  = inl (ValueError "`column` must be an integer")
  /\ isinstance_int (PyFloat one) = false.
Proof.
  assert (H : fst (posterior (Matrix [[half]] 1) [zero; one] (PyFloat one)
                     "auto" (world flow2))
              = inl (ValueError "`column` must be an integer"))
    by reflexivity.
  split; [exact H|].
  apply (proj2 (proj2 (posterior_check_order (Matrix [[half]] 1) [zero; one]
                         (PyFloat one) "auto" (world flow2))) H).
Defined.

(** X13, an instance: [flow2]. *)
Lemma fresh_construction_witness :
  Flow_new (PyInt 2) (Some shift_bijector) None "demo" ∅ = inr flow2
  /\ exists d, PyInt 2 = PyInt d /\ 0 < d /\ input_dim flow2 = d.
Proof.
  assert (H : Flow_new (PyInt 2) (Some shift_bijector) None "demo" ∅
              = inr flow2) by reflexivity.
  split; [exact H|].
  destruct (fresh_construction _ _ _ _ _ H) as (d & Hd & Hpos & Hdim & _).
  exists d. repeat split; assumption.
Defined.

(** X14, an instance: no file, and a file that holds a dictionary of
    dimension 0. *)
Lemma construction_from_file_witness :
  let d0 := {| sd_input_dim := 0; sd_info := "kept";
               sd_bijector := shift_bijector; sd_params := one |} in
  Flow_new PyNone None (Some "f.dill") "given" ∅
  = inl (FileNotFoundError "f.dill")
  /\ exists g,
       Flow_new PyNone None (Some "f.dill") "given" {["f.dill" := d0]} = inr g
       /\ input_dim g = 0 /\ info g = "kept" /\ _params g = one.
Proof.
  cbv zeta. split.
  - apply (proj1 (construction_from_file (E := engine) "f.dill" "given" ∅)).
    reflexivity.
  - match goal with
    | |- context [singletonM _ ?d] =>
        destruct (proj2 (construction_from_file (E := engine) "f.dill" "given"
                           {["f.dill" := d]})
                        d (lookup_singleton_eq _ _))
          as (g & Hg & Hd & Hi & _ & Hp & _)
    end.
    exists g. repeat split; assumption.
Defined.

(** X15, an instance: [flow1], constructed and trained. *)
Lemma constructed_invariant_witness :
  constructed flow1
  /\ constructed
       (self (snd (train batch3 2 2 sgd 0 false (world flow1)))).
Proof.
  destruct (constructed_invariant sgd (PyInt 1) (Some shift_bijector) None
              "demo" ∅ batch3 2 2 0 false) as [Hnew Htrain].
  assert (Hc : constructed flow1) by (apply Hnew; reflexivity).
  split; [exact Hc|]. apply (Htrain (world flow1)), Hc.
Defined.

(** X16, an instance: [flow1] saved, trained and restored. *)
Lemma restore_around_train_witness :
  constructed flow1
  /\ Flow_new PyNone None (Some "flow.dill") "x"
              (disk (snd (train batch3 2 2 sgd 0 false
                            (snd (save "flow.dill" (world flow1))))))
     = inr flow1.
Proof.
  assert (Hc : constructed flow1) by (repeat split).
  split; [exact Hc|].
  apply (proj1 (restore_around_train (E := engine) sgd "flow.dill" "x" batch3
                  2 2 0 false (world flow1) Hc)).
Defined.

(** X17, an instance: the module in [/pkg/examples]. *)
Lemma example_flow_loads_witness :
  os_path_join "/pkg/examples" "example-flow.dill"
  = "/pkg/examples/example-flow.dill"
  /\ constructed flow1
  /\ example_flow "/pkg/examples" "none"
       (disk (snd (save "/pkg/examples/example-flow.dill" (world flow1))))
     = inr flow1.
Proof.
  assert (Hc : constructed flow1) by (repeat split).
  split; [reflexivity|]. split; [exact Hc|].
  apply (proj2 (example_flow_loads (E := engine) "/pkg/examples" "none")
               (world flow1) Hc).
Defined.
